(** * Comput3 ComfyUI setup script: catalog resolution, queue polling,
      retry loops and the reboot request, embedded from
      [src/comput3-ai-comfyui-setup.py].

    Conventions of the embedding.
    - A decoded JSON document is a [jval]; a Python [dict] is an association
      list in insertion order whose lookup takes the first binding of a key.
    - Python [str] is modelled over the ASCII alphabet by [string]; bytes
      above 127 carry no case and are never white space.
    - [time.time()] and the sleep durations are rationals ([Q]); the
      rounding of binary floating point is outside the model.
    - Every HTTP request yields a response (status code and text); failures
      of the transport itself (connection errors) are outside the model.
    - [log] only prints and is left out, and with it the variables that
      only feed it ([attempt], [last_note], the [last_err] of the
      manager-URL install).
    - Sleep durations are positive, as at every call site of the script;
      [time.sleep] of a negative duration (which raises) and a poll interval
      of 0 (a loop that only the latency of its requests can end) are
      outside the model.
    - A [while] loop on the clock is a recursion on a number of iterations
      that the budget cannot outlast ([enough_polls]); the lemmas
      [..._more_polls] show that this number never ends a loop. *)

From Stdlib Require Import ZArith QArith Qminmax Qround List String Ascii Bool Lia Lqa.
From Stdlib Require Import SpecFloat DecimalString.
Import ListNotations.

Set Warnings "-register-all".
Local Open Scope string_scope.
Local Open Scope list_scope.
Local Open Scope Z_scope.

(** ** Python values *)

Inductive jval : Type :=
| JNull
| JBool (b : bool)
| JInt (z : Z)
| JFloat (f : spec_float)
| JStr (s : string)
| JList (l : list jval)
| JDict (d : list (string * jval)).

Definition dict : Type := list (string * jval).

Fixpoint dict_lookup (k : string) (d : dict) : option jval :=
  match d with
  | [] => None
  | (k', v) :: d' => if String.eqb k' k then Some v else dict_lookup k d'
  end.

(** [d.get(k, default)] *)
Definition get_default (d : dict) (k : string) (default : jval) : jval :=
  match dict_lookup k d with
  | Some v => v
  | None => default
  end.

(** [d.get(k)] *)
Definition get_ (d : dict) (k : string) : jval := get_default d k JNull.

Definition float_is_zero (f : spec_float) : bool :=
  match f with
  | S754_zero _ => true
  | _ => false
  end.

(** Truth value of an object, as [not x], [x or y] and [if x] take it. *)
Definition py_bool (v : jval) : bool :=
  match v with
  | JNull => false
  | JBool b => b
  | JInt z => negb (Z.eqb z 0)
  | JFloat f => negb (float_is_zero f)
  | JStr s => negb (String.eqb s "")
  | JList l => match l with [] => false | _ => true end
  | JDict d => match d with [] => false | _ => true end
  end.

(** [x or y] *)
Definition py_or (x y : jval) : jval := if py_bool x then x else y.

(** *** Strings *)

(** White space of [str.strip] and of the pattern [\s], within ASCII. *)
Definition is_space (c : ascii) : bool :=
  let n := N_of_ascii c in
  ((9 <=? n) && (n <=? 13) || (28 <=? n) && (n <=? 32))%N.

Definition lower_ascii (c : ascii) : ascii :=
  let n := N_of_ascii c in
  if ((65 <=? n) && (n <=? 90))%N then ascii_of_N (n + 32) else c.

Fixpoint lower (s : string) : string :=
  match s with
  | EmptyString => EmptyString
  | String c r => String (lower_ascii c) (lower r)
  end.

Fixpoint lstrip (s : string) : string :=
  match s with
  | EmptyString => EmptyString
  | String c r => if is_space c then lstrip r else s
  end.

Fixpoint all_space (s : string) : bool :=
  match s with
  | EmptyString => true
  | String c r => is_space c && all_space r
  end.

Fixpoint rstrip (s : string) : string :=
  match s with
  | EmptyString => EmptyString
  | String c r => if all_space s then EmptyString else String c (rstrip r)
  end.

Definition strip (s : string) : string := rstrip (lstrip s).

(** [re.sub(r"\s+", " ", s)]: every maximal run of white space becomes one
    blank.  [in_run] says that the previous character was white space. *)
Fixpoint collapse_ws_from (in_run : bool) (s : string) : string :=
  match s with
  | EmptyString => EmptyString
  | String c r =>
      if is_space c
      then (if in_run then collapse_ws_from true r
            else String " " (collapse_ws_from true r))
      else String c (collapse_ws_from false r)
  end.

Definition collapse_ws (s : string) : string := collapse_ws_from false s.

(** [s.find(sub)] *)
Definition find (s sub : string) : Z :=
  match String.index 0 sub s with
  | Some n => Z.of_nat n
  | None => -1
  end.

(** [sub in s] *)
Definition str_in (sub s : string) : bool :=
  match String.index 0 sub s with
  | Some _ => true
  | None => false
  end.

Definition string_of_Z (z : Z) : string := NilZero.string_of_int (Z.to_int z).

(** *** [int(x)] *)

Definition digit_of (c : ascii) : option Z :=
  let n := N_of_ascii c in
  if ((48 <=? n) && (n <=? 57))%N then Some (Z.of_N (n - 48)) else None.

(** Decimal digits, single underscores allowed between two digits. *)
Fixpoint digits_val (acc : Z) (after_digit : bool) (s : string) : option Z :=
  match s with
  | EmptyString => if after_digit then Some acc else None
  | String c r =>
      match digit_of c with
      | Some d => digits_val (10 * acc + d) true r
      | None =>
          if Ascii.eqb c "_" && after_digit then digits_val acc false r
          else None
      end
  end.

(** White space that [int] skips around the digits: blank, [\t], [\n],
    [\v], [\f], [\r] (not the separators 0x1c to 0x1f that [str.strip]
    removes). *)
Definition is_int_space (c : ascii) : bool :=
  let n := N_of_ascii c in
  ((9 <=? n) && (n <=? 13) || (n =? 32))%N.

Fixpoint int_lstrip (s : string) : string :=
  match s with
  | EmptyString => EmptyString
  | String c r => if is_int_space c then int_lstrip r else s
  end.

Fixpoint all_int_space (s : string) : bool :=
  match s with
  | EmptyString => true
  | String c r => is_int_space c && all_int_space r
  end.

Fixpoint int_rstrip (s : string) : string :=
  match s with
  | EmptyString => EmptyString
  | String c r => if all_int_space s then EmptyString else String c (int_rstrip r)
  end.

Definition int_of_string (s : string) : option Z :=
  match int_rstrip (int_lstrip s) with
  | String "-" r => option_map Z.opp (digits_val 0 false r)
  | String "+" r => digits_val 0 false r
  | t => digits_val 0 false t
  end.

(** Truncation toward zero of a float; [None] for NaN and the infinities,
    on which [int] raises. *)
Definition float_trunc (f : spec_float) : option Z :=
  match f with
  | S754_zero _ => Some 0
  | S754_infinity _ => None
  | S754_nan => None
  | S754_finite sgn m e =>
      let a := if 0 <=? e then Z.shiftl (Z.pos m) e
               else Z.shiftr (Z.pos m) (- e) in
      Some (if sgn then - a else a)
  end.

(** [int(x)]; [None] when it raises ([TypeError], [ValueError] or
    [OverflowError], all of them [Exception]s). *)
Definition py_int (v : jval) : option Z :=
  match v with
  | JBool b => Some (if b then 1 else 0)
  | JInt z => Some z
  | JFloat f => float_trunc f
  | JStr s => int_of_string s
  | JNull | JList _ | JDict _ => None
  end.


(** ** The remote service, the clock and the effects of the script *)

(** Body handed to [requests]: [json.dumps(obj).encode("utf-8")] of an object,
    or the bytes of a text. *)
Inductive payload : Type :=
| JsonPayload (obj : jval)
| TextPayload (s : string).

Inductive request : Type :=
| GET (url : string)
| POST (url : string) (data : payload) (content_type : string).

(** The text of a response together with what [json.loads] makes of it
    ([None] when it raises); decoding belongs to the [json] library. *)
Record body : Type := Body { text : string; decoded : option jval }.

Definition json_loads (b : body) : option jval := decoded b.

Record response : Type := Response {
  status_code : Z;
  resp_body : body;
  elapsed_ms : N   (* time the exchange took *)
}.

Inductive event : Type :=
| Requested (at_time : Q) (rq : request) (rs : response)
| Slept (at_time : Q) (seconds : Q).

(** The remote service answers a request knowing all that happened so far
    and the time. *)
Definition service : Type := list event -> Q -> request -> response.

Record world : Type := World {
  remote : service;
  now : Q;              (* what [time.time()] returns *)
  trace : list event    (* oldest first *)
}.

Inductive exn : Type :=
| RuntimeError (msg : string)
| JSONDecodeError
| AttributeError
| TypeError.

Inductive result (A : Type) : Type :=
| Return (a : A)
| Raise (e : exn).
Arguments Return {A} a.
Arguments Raise {A} e.

Definition M (A : Type) : Type := world -> result A * world.

Definition ret {A : Type} (a : A) : M A := fun w => (Return a, w).

Definition raise {A : Type} (e : exn) : M A := fun w => (Raise e, w).

Definition bind {A B : Type} (c : M A) (k : A -> M B) : M B :=
  fun w =>
    match c w with
    | (Return a, w1) => k a w1
    | (Raise e, w1) => (Raise e, w1)
    end.

(** [try: c  except Exception: h] *)
Definition try_except {A : Type} (c : M A) (h : M A) : M A :=
  fun w =>
    match c w with
    | (Return a, w1) => (Return a, w1)
    | (Raise _, w1) => h w1
    end.

Declare Scope script_scope.
Delimit Scope script_scope with script.
Notation "x <- c ;; k" := (bind c (fun x => k))
  (at level 61, c at next level, right associativity) : script_scope.
Notation "' pat <- c ;; k" := (bind c (fun x => match x with pat => k end))
  (at level 61, pat pattern, c at next level, right associativity) : script_scope.
Notation "c ;; k" := (bind c (fun _ => k))
  (at level 61, right associativity) : script_scope.
Local Open Scope script_scope.

Definition ensure (cond : bool) (err : string) : M unit :=
  if cond then ret tt else raise (RuntimeError err).

Definition seconds_of_ms (n : N) : Q := Z.of_N n # 1000.

(** The clock is kept in lowest terms. *)
Definition advance (w : world) (d : Q) (e : event) : world :=
  {| remote := remote w; now := Qred (now w + d); trace := trace w ++ [e] |}.

(** What the service would answer to [rq] in the state [w]. *)
Definition respond (w : world) (rq : request) : response :=
  remote w (trace w) (now w) rq.

(** The state after the request [rq] has been answered. *)
Definition after_request (w : world) (rq : request) : world :=
  let rs := respond w rq in
  advance w (seconds_of_ms (elapsed_ms rs)) (Requested (now w) rq rs).

Definition send (rq : request) : M (Z * body) :=
  fun w =>
    let rs := respond w rq in
    (Return (status_code rs, resp_body rs), after_request w rq).

Definition time_time : M Q := fun w => (Return (now w), w).

Definition after_sleep (w : world) (d : Q) : world :=
  advance w d (Slept (now w) d).

Definition sleep (d : Q) : M unit := fun w => (Return tt, after_sleep w d).

Definition get (url : string) : M (Z * body) := send (GET url).

Definition post (url : string) (payload_bytes : payload) (content_type : string)
  : M (Z * body) :=
  send (POST url payload_bytes content_type).

Definition jpost (url : string) (obj : jval) : M (Z * body) :=
  post url (JsonPayload obj) "application/json".

(** [backoff = min(backoff * 1.7, 10.0)] *)
Definition next_backoff (backoff : Q) : Q := Qmin (backoff * (17 # 10)) 10.

(** The codes every enqueue loop retries on. *)
Definition transient_codes : list Z := [404; 409; 429; 500; 502; 503; 504].

Definition is_transient (code : Z) : bool := existsb (Z.eqb code) transient_codes.

(** Number of iterations after which a loop that sleeps at least [step]
    seconds per iteration has used up [budget] seconds. *)
Definition enough_polls (budget step : Q) : nat :=
  S (Z.to_nat (Qceiling (budget / step))).

Definition request_url (rq : request) : string :=
  match rq with
  | GET url => url
  | POST url _ _ => url
  end.

(** [e] is a request to [url]. *)
Definition asked (url : string) (e : event) : bool :=
  match e with
  | Requested _ rq _ => String.eqb (request_url rq) url
  | Slept _ _ => false
  end.

Definition is_sleep (e : event) : bool :=
  match e with
  | Requested _ _ _ => false
  | Slept _ _ => true
  end.

(** ** Queue helpers *)

Definition queue_reset (api_base : string) : M unit :=
  _ <- get (api_base ++ "/manager/queue/reset")%string ;; ret tt.

Definition queue_start (api_base : string) : M unit :=
  _ <- get (api_base ++ "/manager/queue/start")%string ;; ret tt.

(** The test inside the [try] of [wait_queue_idle]; an exception raised
    there ([json.loads], [s.get] on a value that is no dict, [int]) is
    swallowed, which leaves the test false. *)
Definition status_says_idle (b : body) : bool :=
  match json_loads b with
  | Some (JDict s) =>
      negb (py_bool (get_ s "is_processing"))
      && match py_int (get_default s "in_progress_count" (JInt 0)) with
         | Some n => Z.eqb n 0
         | None => false
         end
  | _ => false
  end.

(** [e] is an answer to the queue status request that makes
    [wait_queue_idle] return [True]. *)
Definition observed_idle (api_base : string) (e : event) : bool :=
  match e with
  | Requested _ (GET url) rs =>
      String.eqb url (api_base ++ "/manager/queue/status")%string
      && Z.eqb (status_code rs) 200 && status_says_idle (resp_body rs)
  | _ => false
  end.

(** [e] is a queue status request sent before [deadline], or a sleep. *)
Definition polled_before (api_base : string) (deadline : Q) (e : event) : Prop :=
  match e with
  | Requested t rq _ =>
      rq = GET (api_base ++ "/manager/queue/status")%string /\ (t < deadline)%Q
  | Slept _ _ => True
  end.

(** The [while time.time() < deadline] loop of [wait_queue_idle]; [polls]
    bounds the number of iterations. *)
Fixpoint wait_queue_idle_loop (polls : nat) (api_base : string)
    (deadline poll_s : Q) : M bool :=
  match polls with
  | O => ret false
  | S polls' =>
      t <- time_time ;;
      if Qlt_le_dec t deadline then
        '(code, body) <- get (api_base ++ "/manager/queue/status")%string ;;
        if Z.eqb code 200 && status_says_idle body then ret true
        else sleep poll_s ;;
             wait_queue_idle_loop polls' api_base deadline poll_s
      else ret false
  end.

Definition wait_queue_idle (api_base : string) (timeout_s poll_s : Q) : M bool :=
  t0 <- time_time ;;
  wait_queue_idle_loop (enough_polls timeout_s poll_s) api_base
                       (t0 + timeout_s) poll_s.

(** The runs of the [while] loop of [wait_queue_idle] from a state [w]:
    before the deadline the queue status is requested and an idle answer
    ends the run with [True], any other answer is followed by a sleep of
    [poll_s] and the next round; at or after the deadline the run ends with
    [False]. *)
Inductive queue_polls (api_base : string) (deadline poll_s : Q)
  : world -> bool -> world -> Prop :=
| queue_polls_idle (w : world) :
    (now w < deadline)%Q ->
    Z.eqb (status_code (respond w (GET (api_base ++ "/manager/queue/status")%string))) 200
    && status_says_idle
         (resp_body (respond w (GET (api_base ++ "/manager/queue/status")%string)))
    = true ->
    queue_polls api_base deadline poll_s w true
      (after_request w (GET (api_base ++ "/manager/queue/status")%string))
| queue_polls_busy (w : world) (b : bool) (w' : world) :
    (now w < deadline)%Q ->
    Z.eqb (status_code (respond w (GET (api_base ++ "/manager/queue/status")%string))) 200
    && status_says_idle
         (resp_body (respond w (GET (api_base ++ "/manager/queue/status")%string)))
    = false ->
    queue_polls api_base deadline poll_s
      (after_sleep
         (after_request w (GET (api_base ++ "/manager/queue/status")%string))
         poll_s) b w' ->
    queue_polls api_base deadline poll_s w b w'
| queue_polls_timeout (w : world) :
    (deadline <= now w)%Q ->
    queue_polls api_base deadline poll_s w false w.

(** ** Readiness *)

Definition ok (c : Z) : bool := Z.eqb c 200.

(** The [while time.time() - start < timeout_s] loop of
    [wait_for_comfy_ready]; [polls] bounds the number of iterations. *)
Fixpoint wait_for_comfy_ready_loop (polls : nat) (api_base : string)
    (start timeout_s backoff : Q) : M bool :=
  match polls with
  | O => ret false
  | S polls' =>
      t <- time_time ;;
      if Qlt_le_dec (t - start) timeout_s then
        '(code_q, _) <- get (api_base ++ "/queue")%string ;;
        '(code_cn, _) <-
          get (api_base ++ "/customnode/getlist?mode=cache&skip_update=true")%string ;;
        '(code_em, _) <-
          get (api_base ++ "/externalmodel/getlist?mode=cache&skip_update=true")%string ;;
        '(code_m, _) <-
          get (api_base ++ "/model/getlist?mode=cache&skip_update=true")%string ;;
        if ok code_q && (ok code_cn || ok code_em || ok code_m) then ret true
        else sleep backoff ;;
             wait_for_comfy_ready_loop polls' api_base start timeout_s
                                       (next_backoff backoff)
      else ret false
  end.

Definition wait_for_comfy_ready (api_base : string) (initial_sleep timeout_s : Q)
  : M bool :=
  (if Qlt_le_dec 0 initial_sleep then sleep initial_sleep else ret tt) ;;
  start <- time_time ;;
  wait_for_comfy_ready_loop (enough_polls timeout_s (3 # 2)) api_base
                            start timeout_s (3 # 2).

(** The events of iterations of the loop of [wait_for_comfy_ready] that
    did not find the service ready: the four probes, begun within the
    budget, and the sleep that follows. *)
Inductive failed_probes (api_base : string) (start timeout_s : Q)
  : list event -> Prop :=
| failed_probes_nil : failed_probes api_base start timeout_s []
| failed_probes_cons (t_q t_cn t_em t_m t_s : Q) (r_q r_cn r_em r_m : response)
    (d : Q) (rest : list event) :
    (t_q - start < timeout_s)%Q ->
    ok (status_code r_q)
    && (ok (status_code r_cn) || ok (status_code r_em) || ok (status_code r_m))
    = false ->
    failed_probes api_base start timeout_s rest ->
    failed_probes api_base start timeout_s
      (Requested t_q (GET (api_base ++ "/queue")%string) r_q
       :: Requested t_cn
            (GET (api_base ++ "/customnode/getlist?mode=cache&skip_update=true")%string)
            r_cn
       :: Requested t_em
            (GET (api_base ++ "/externalmodel/getlist?mode=cache&skip_update=true")%string)
            r_em
       :: Requested t_m
            (GET (api_base ++ "/model/getlist?mode=cache&skip_update=true")%string)
            r_m
       :: Slept t_s d :: rest).

(** ** Step 4 of [install_node_by_query]: reset queue, enqueue, start, wait

    The entry built by steps 1 to 3 (catalog lookup, versions, GUI-parity
    shape) is the argument [entry]; [remaining] is [6 - attempts]. *)

Fixpoint node_enqueue_loop (remaining : nat) (api_base : string)
    (payload : payload) (backoff : Q) : M bool :=
  match remaining with
  | O => ret false
  | S remaining' =>
      '(code, body) <- post (api_base ++ "/manager/queue/install")%string payload
                            "text/plain;charset=UTF-8" ;;
      if Z.eqb code 200 then
        queue_start api_base ;;
        wait_queue_idle api_base 180 (3 # 2)
      else if is_transient code then
        sleep backoff ;;
        node_enqueue_loop remaining' api_base payload (next_backoff backoff)
      else
        raise (RuntimeError ("[nodes] enqueue failed " ++ string_of_Z code
                             ++ ": " ++ text body)%string)
  end.

Definition install_node_by_query_enqueue (api_base : string) (entry : dict)
  : M bool :=
  queue_reset api_base ;;
  node_enqueue_loop 6 api_base (JsonPayload (JDict entry)) (3 # 2).

(** The next [n] answers to the enqueue [rq], as the loop meets them from
    the state [w] on (a sleep of [backoff] after each), are all transient. *)
Fixpoint answers_transient (n : nat) (rq : request) (backoff : Q) (w : world)
  : Prop :=
  match n with
  | O => True
  | S n' =>
      In (status_code (respond w rq)) transient_codes
      /\ answers_transient n' rq (next_backoff backoff)
           (after_sleep (after_request w rq) backoff)
  end.

(** ** Reboot *)

Definition reboot_accepting_codes : list Z := [502; 503; 504].

(** The statuses on which the request loop stops with the reboot accepted. *)
Definition reboot_accepted_code (code : Z) : Prop :=
  code = 200 \/ In code reboot_accepting_codes.

(** The state in which the loop makes its next request after [n] answers
    that made it sleep and retry. *)
Fixpoint after_retries (n : nat) (rq : request) (backoff : Q) (w : world)
  : world :=
  match n with
  | O => w
  | S n' =>
      after_retries n' rq (next_backoff backoff)
                    (after_sleep (after_request w rq) backoff)
  end.

(** The next [n] answers to the reboot request [rq], as the loop meets them
    from the state [w] on, are all unaccepted. *)
Fixpoint answers_unaccepted (n : nat) (rq : request) (backoff : Q) (w : world)
  : Prop :=
  match n with
  | O => True
  | S n' =>
      ~ reboot_accepted_code (status_code (respond w rq))
      /\ answers_unaccepted n' rq (next_backoff backoff)
           (after_sleep (after_request w rq) backoff)
  end.

(** The request loop of [reboot_comfy_cycle]; [remaining] is [8 - attempts].
    It returns [reboot_accepted] and [last_err]. *)
Fixpoint reboot_request_loop (remaining : nat) (api_base : string)
    (backoff : Q) (last_err : option string) : M (bool * option string) :=
  match remaining with
  | O => ret (false, last_err)
  | S remaining' =>
      '(code, body) <- get (api_base ++ "/manager/reboot")%string ;;
      let err := (string_of_Z code ++ ": " ++ substring 0 160 (text body))%string in
      if Z.eqb code 200 then ret (true, last_err)
      else if existsb (Z.eqb code) reboot_accepting_codes then ret (true, Some err)
      else
        sleep backoff ;;
        reboot_request_loop remaining' api_base (next_backoff backoff)
                            (Some err)
  end.

(** Phase A: [while time.time() < phaseA_deadline]; returns [saw_down]. *)
Fixpoint reboot_phase_a_loop (polls : nat) (api_base : string)
    (phaseA_deadline backoff : Q) : M bool :=
  match polls with
  | O => ret false
  | S polls' =>
      t <- time_time ;;
      if Qlt_le_dec t phaseA_deadline then
        '(code, _) <- get (api_base ++ "/queue")%string ;;
        if negb (Z.eqb code 200) then ret true
        else sleep backoff ;;
             reboot_phase_a_loop polls' api_base phaseA_deadline
                                 (Qmin (backoff * (14 # 10)) 4)
      else ret false
  end.

(** Phase A, phase B and the final wait of [reboot_comfy_cycle]. *)
Definition reboot_phases (api_base : string) (extra_wait_after_up_s : Q)
    (total_timeout_s : Z) : M unit :=
  t <- time_time ;;
  let budget := inject_Z (Z.min 120 (total_timeout_s / 3)) in
  _ <- reboot_phase_a_loop (enough_polls budget (12 # 10)) api_base
                           (t + budget) (12 # 10) ;;
  came_back <- wait_for_comfy_ready api_base 0
                 (inject_Z (Z.max 180 (total_timeout_s - 60))) ;;
  ensure came_back "[reboot] API did not become healthy again within timeout" ;;
  sleep extra_wait_after_up_s.

Definition reboot_comfy_cycle (api_base : string) (extra_wait_after_up_s : Q)
    (total_timeout_s : Z) : M unit :=
  '(reboot_accepted, last_err) <- reboot_request_loop 8 api_base (3 # 2) None ;;
  ensure reboot_accepted
         ("[reboot] could not initiate reboot: "
          ++ match last_err with Some e => e | None => "None" end)%string ;;
  reboot_phases api_base extra_wait_after_up_s total_timeout_s.

(** ** Helpers of the script and the lenient pickers *)

Section Script.

(** [str(x)] of a float, a list or a dict is the interpreter's [repr]; it is
    taken as given. *)
Variable py_repr : jval -> string.

(** [str(x)] *)
Definition py_str (v : jval) : string :=
  match v with
  | JNull => "None"
  | JBool true => "True"
  | JBool false => "False"
  | JInt z => string_of_Z z
  | JStr s => s
  | JFloat _ | JList _ | JDict _ => py_repr v
  end.

Definition normalize (x : jval) : string :=
  match x with
  | JNull => ""
  | _ => collapse_ws (lower (strip (py_str x)))
  end.

Definition truthy_words : list string :=
  ["true"; "1"; "yes"; "installed"; "ok"; "enabled"; "active"; "success";
   "completed"; "done"].

Definition truthy (x : jval) : bool :=
  match x with
  | JBool b => b
  | JInt z => negb (Z.eqb z 0)
  | JFloat f => negb (float_is_zero f)
  | JStr _ => existsb (String.eqb (normalize x)) truthy_words
  | JNull | JList _ | JDict _ => false
  end.

(** The running maximum kept by both pickers: [if score > best_score]. *)
Definition keep_best (score_of : dict -> Z) (acc : option dict * Z) (m : dict)
  : option dict * Z :=
  if score_of m >? snd acc then (Some m, score_of m) else acc.

Definition node_not_installed (m : dict) : bool :=
  let state := normalize (get_ m "state") in
  String.eqb state "not-installed"
  || (String.eqb state ""
      && negb (truthy (get_ m "installed") || truthy (get_ m "is_installed"))).

(** Body of the loop of [pick_node] up to the comparison with the best. *)
Definition node_score (q : string) (m : dict) : Z :=
  let mid := normalize (get_ m "id") in
  let title := normalize (get_ m "title") in
  let repo := normalize (py_or (get_ m "repository")
                               (py_or (get_ m "repo") (get_ m "pkg_name"))) in
  let score :=
    if String.eqb mid q || String.eqb title q then 10000
    else
      (if negb (String.eqb q "") && (0 <=? find mid q) then 400 else 0)
      + (if negb (String.eqb q "") && (0 <=? find title q) then 350 else 0)
      + (if negb (String.eqb q "") && (0 <=? find repo q) then 250 else 0) in
  if node_not_installed m then score + 50 else score.

Definition pick_node (catalog : list dict) (query : string)
  : option dict * Z :=
  let q := normalize (JStr query) in
  fold_left (keep_best (node_score q)) catalog (None, -1).

(** Body of the loop of [pick_model] up to the comparison with the best. *)
Definition model_score (q : string) (m : dict) : Z :=
  let fn := normalize (get_ m "filename") in
  let nm := normalize (get_ m "name") in
  let installed := truthy (get_ m "installed") in
  if String.eqb fn q || String.eqb nm q then 1000
  else
    let score :=
      (if negb (String.eqb q "") && (0 <=? find fn q) then 400 else 0)
      + (if negb (String.eqb q "") && (0 <=? find nm q) then 300 else 0)
      + (if negb installed then 50 else 0) in
    let looks_file := str_in "." q in
    if looks_file && negb (String.eqb fn q || (0 <=? find fn q)) then -1
    else score.

Definition pick_model (catalog : list dict) (query : string)
  : option dict * Z :=
  let q := normalize (JStr query) in
  let '(best, best_score) :=
    fold_left (keep_best (model_score q)) catalog (None, -1) in
  (if 250 <=? best_score then best else None, best_score).

(** ** Catalog of models *)

Definition dict_has (k : string) (d : dict) : bool :=
  match dict_lookup k d with Some _ => true | None => false end.

(** The [for path in (...)] loop of [get_models_catalog]. *)
Fixpoint get_models_catalog_from (api_base : string) (paths : list string)
  : M jval :=
  match paths with
  | [] => raise (RuntimeError "models getlist returned no usable result")
  | path :: rest =>
      '(code, body) <- get (api_base ++ path)%string ;;
      if negb (Z.eqb code 200) then get_models_catalog_from api_base rest
      else
        match json_loads body with
        | None => raise JSONDecodeError
        | Some data =>
            match data with
            | JDict d =>
                match dict_lookup "models" d with
                | Some models => ret models
                | None => get_models_catalog_from api_base rest
                end
            | JList _ => ret data
            | _ => get_models_catalog_from api_base rest
            end
        end
  end.

Definition get_models_catalog (api_base : string) : M jval :=
  get_models_catalog_from api_base
    ["/externalmodel/getlist?mode=cache&skip_update=true";
     "/model/getlist?mode=cache&skip_update=true"].

(** [for m in catalog] followed by [m.get(...)]: the entries of a list of
    dicts.  An element that is no dict has no [get] ([AttributeError]), as
    have the keys of a dict and the characters of a string; other values
    are not iterable ([TypeError]). *)
Fixpoint dicts_of (l : list jval) : option (list dict) :=
  match l with
  | [] => Some []
  | JDict d :: r => option_map (cons d) (dicts_of r)
  | _ :: _ => None
  end.

Definition entries_of (catalog : jval) : M (list dict) :=
  match catalog with
  | JList l =>
      match dicts_of l with
      | Some ds => ret ds
      | None => raise AttributeError
      end
  | JDict [] | JStr EmptyString => ret []
  | JDict _ | JStr _ => raise AttributeError
  | JNull | JBool _ | JInt _ | JFloat _ => raise TypeError
  end.

(** The [for m in all_models] loop inside the [try] of
    [wait_model_installed]; an exception ends it without a match. *)
Fixpoint reported_installed (filename : string) (all_models : list jval) : bool :=
  match all_models with
  | [] => false
  | JDict m :: rest =>
      if String.eqb (lower (py_str (get_default m "filename" (JStr ""))))
                    (lower filename)
         && truthy (get_ m "installed")
      then true
      else reported_installed filename rest
  | _ :: _ => false
  end.

(** The [try] block of [wait_model_installed]: whether it returns [True]. *)
Definition catalog_says_installed (api_base filename : string) : M bool :=
  try_except
    (all_models <- get_models_catalog api_base ;;
     match all_models with
     | JList l => ret (reported_installed filename l)
     | _ => ret false
     end)
    (ret false).

Fixpoint wait_model_installed_loop (polls : nat) (api_base filename : string)
    (deadline poll_s : Q) : M bool :=
  match polls with
  | O => ret false
  | S polls' =>
      t <- time_time ;;
      if Qlt_le_dec t deadline then
        found <- catalog_says_installed api_base filename ;;
        if found then ret true
        else sleep poll_s ;;
             wait_model_installed_loop polls' api_base filename deadline poll_s
      else ret false
  end.

Definition wait_model_installed (api_base filename : string)
    (timeout_s poll_s : Q) : M bool :=
  t0 <- time_time ;;
  wait_model_installed_loop (enough_polls timeout_s poll_s) api_base filename
                            (t0 + timeout_s) poll_s.

(** The runs of the [while] loop of [wait_model_installed] from a state
    [w]: before the deadline the model catalog is fetched and searched, a
    hit ends the run with [True], a miss (or an exception, swallowed) is
    followed by a sleep of [poll_s] and the next round; at or after the
    deadline the run ends with [False]. *)
Inductive catalog_polls (api_base filename : string) (deadline poll_s : Q)
  : world -> bool -> world -> Prop :=
| catalog_polls_found (w w1 : world) :
    (now w < deadline)%Q ->
    catalog_says_installed api_base filename w = (Return true, w1) ->
    catalog_polls api_base filename deadline poll_s w true w1
| catalog_polls_missing (w w1 : world) (b : bool) (w' : world) :
    (now w < deadline)%Q ->
    catalog_says_installed api_base filename w = (Return false, w1) ->
    catalog_polls api_base filename deadline poll_s (after_sleep w1 poll_s) b w' ->
    catalog_polls api_base filename deadline poll_s w b w'
| catalog_polls_timeout (w : world) :
    (deadline <= now w)%Q ->
    catalog_polls api_base filename deadline poll_s w false w.

(** ** Whitelisted models *)

(** [(x or "").strip()]: a true value that is no string has no [strip]. *)
Definition or_empty_strip (x : jval) : M string :=
  match py_or x (JStr "") with
  | JStr s => ret (strip s)
  | _ => raise AttributeError
  end.

(** The enqueue loop of [install_model_by_query]; [remaining] is
    [6 - attempts]. *)
Fixpoint model_enqueue_loop (remaining : nat) (api_base : string)
    (payload : payload) (filename : string) (backoff : Q) : M bool :=
  match remaining with
  | O => ret false
  | S remaining' =>
      '(code, body) <- post (api_base ++ "/manager/queue/install_model")%string
                            payload "text/plain;charset=UTF-8" ;;
      if Z.eqb code 200 then
        queue_start api_base ;;
        wait_model_installed api_base filename 600 (3 # 2)
      else if is_transient code then
        sleep backoff ;;
        model_enqueue_loop remaining' api_base payload filename
                           (next_backoff backoff)
      else
        raise (RuntimeError ("[models] enqueue failed " ++ string_of_Z code
                             ++ ": " ++ text body)%string)
  end.

Definition install_model_by_query (api_base query : string) : M bool :=
  models <- get_models_catalog api_base ;;
  entries <- entries_of models ;;
  let '(picked, score) := pick_model entries query in
  match picked with
  | None => ret false
  | Some picked =>
      if negb (py_bool (JDict picked)) then ret false
      else
        base <- or_empty_strip (get_ picked "base") ;;
        save_path <- or_empty_strip (get_ picked "save_path") ;;
        filename <- or_empty_strip (get_ picked "filename") ;;
        ensure (negb (String.eqb base "") && negb (String.eqb save_path "")
                && negb (String.eqb filename ""))
               ("[models] matched entry missing base/save_path/filename: "
                ++ py_str (JDict picked))%string ;;
        queue_reset api_base ;;
        model_enqueue_loop 6 api_base (JsonPayload (JDict picked)) filename
                           (3 # 2)
  end.

(** ** Non-whitelisted models: manager URL endpoints *)

Definition _INSTALL_URL_PATHS : list string :=
  ["/externalmodel/install_url"; "/model/install_url";
   "/externalmodel/add_by_url"; "/model/add_by_url"].

(** [spec.get(k, "").strip()] *)
Definition get_strip (spec : dict) (k : string) : M string :=
  match get_default spec k (JStr "") with
  | JStr s => ret (strip s)
  | _ => raise AttributeError
  end.

(** [e] is a POST that was not answered 200. *)
Definition refused_post (e : event) : Prop :=
  match e with
  | Requested _ (POST _ _ _) rs => status_code rs <> 200
  | _ => False
  end.

(** The inner loop [for payload in candidates]; [Some ok] when the function
    returned [ok] from inside it. *)
Fixpoint try_candidates (api_base endpoint : string) (candidates : list jval)
  : M (option bool) :=
  match candidates with
  | [] => ret None
  | payload :: rest =>
      '(code, body) <- jpost endpoint payload ;;
      if Z.eqb code 200 then
        queue_start api_base ;;
        ok <- wait_queue_idle api_base 900 (3 # 2) ;;
        ret (Some ok)
      else try_candidates api_base endpoint rest
  end.

(** The outer loop [for path in _INSTALL_URL_PATHS] and the final
    [return False]. *)
Fixpoint try_install_url_paths (api_base : string) (paths : list string)
    (candidates : list jval) : M bool :=
  match paths with
  | [] => ret false
  | path :: rest =>
      r <- try_candidates api_base (api_base ++ path)%string candidates ;;
      match r with
      | Some ok => ret ok
      | None => try_install_url_paths api_base rest candidates
      end
  end.

Definition manager_candidates (url filename subfolder sha256 : string)
  : list jval :=
  [ JDict [("url", JStr url); ("filename", JStr filename);
           ("subfolder", JStr subfolder); ("sha256", JStr sha256)];
    JDict [("url", JStr url); ("filename", JStr filename);
           ("save_path", JStr ("/app/ComfyUI/models/" ++ subfolder)%string);
           ("sha256", JStr sha256)] ].

Definition install_nonwhitelisted_model_via_manager (api_base : string)
    (spec : dict) : M bool :=
  url <- get_strip spec "url" ;;
  filename <- get_strip spec "filename" ;;
  subfolder <- get_strip spec "subfolder" ;;
  sha256 <- get_strip spec "sha256" ;;
  ensure (negb (String.eqb url "") && negb (String.eqb filename "")
          && negb (String.eqb subfolder ""))
         ("[nonwhite] url/filename/subfolder required: "
          ++ py_str (JDict spec))%string ;;
  queue_reset api_base ;;
  try_install_url_paths api_base _INSTALL_URL_PATHS
    (manager_candidates url filename subfolder sha256).

(** ** Workflow helpers and the downloader fallback *)

(** The [for base in (api_base, root_base)] loop of [_prompt_post_try];
    [last_text] is the text of the last response. *)
Fixpoint _prompt_post_from (bases : list string) (body_bytes : payload)
    (content_type : string) (last_text : string) : M (bool * jval) :=
  match bases with
  | [] => ret (false, JStr last_text)
  | base :: rest =>
      '(code, body) <- post (base ++ "/prompt")%string body_bytes content_type ;;
      if Z.eqb code 200 then
        match json_loads body with
        | Some j => ret (true, j)
        | None => ret (true, JDict [("raw", JStr (text body))])
        end
      else _prompt_post_from rest body_bytes content_type (text body)
  end.

Definition _prompt_post_try (api_base root_base : string) (body_bytes : payload)
    (content_type : string) : M (bool * jval) :=
  _prompt_post_from [api_base; root_base] body_bytes content_type "".

(** The [for k in ("prompt_id", "promptId", "id")] loop. *)
Fixpoint first_nonempty_str (d : dict) (keys : list string) : option string :=
  match keys with
  | [] => None
  | k :: rest =>
      match get_ d k with
      | JStr (String c r) => Some (String c r)
      | _ => first_nonempty_str d rest
      end
  end.

Definition extract_prompt_id (resp_json : jval) : option string :=
  match resp_json with
  | JDict d =>
      match first_nonempty_str d ["prompt_id"; "promptId"; "id"] with
      | Some v => Some v
      | None =>
          match get_ d "data" with
          | JDict data => first_nonempty_str data ["prompt_id"; "promptId"; "id"]
          | _ => None
          end
      end
  | _ => None
  end.

Definition _history_fetch (api_base prompt_id : string)
  : M (Z * option dict) :=
  '(code, body) <- get (api_base ++ "/history/" ++ prompt_id)%string ;;
  if negb (Z.eqb code 200) then ret (code, None)
  else
    match json_loads body with
    | Some (JDict obj) =>
        match dict_lookup prompt_id obj with
        | Some (JDict h) => ret (200, Some h)
        | _ =>
            if dict_has "status" obj || dict_has "outputs" obj
            then ret (200, Some obj)
            else ret (200, None)
        end
    | _ => ret (200, None)
    end.

Inductive run_result : Type := success | error.

Definition _is_workflow_done (hist_obj : dict) : bool * option run_result :=
  let by_outputs :=
    if py_bool (get_ hist_obj "outputs") then (true, Some success)
    else (false, None) in
  match py_or (get_ hist_obj "status") (JDict []) with
  | JDict st =>
      if truthy (get_ st "completed") then (true, Some success)
      else
        let sstr :=
          normalize (py_or (get_ st "status")
                    (py_or (get_ st "status_str")
                    (py_or (get_ st "state") (JStr "")))) in
        if existsb (String.eqb sstr) ["success"; "complete"; "completed"; "done"]
        then (true, Some success)
        else if existsb (String.eqb sstr) ["error"; "failed"; "fail"; "exception"]
                || truthy (get_ st "error")
        then (true, Some error)
        else by_outputs
  | _ => by_outputs
  end.

Fixpoint wait_workflow_complete_loop (polls : nat) (api_base prompt_id : string)
    (deadline poll_s : Q) : M bool :=
  match polls with
  | O => ret false
  | S polls' =>
      t <- time_time ;;
      if Qlt_le_dec t deadline then
        '(code, hist) <- _history_fetch api_base prompt_id ;;
        match (if Z.eqb code 200 then hist else None) with
        | Some h =>
            match _is_workflow_done h with
            | (true, Some error) => ret false
            | (true, _) => ret true
            | (false, _) =>
                sleep poll_s ;;
                wait_workflow_complete_loop polls' api_base prompt_id
                                            deadline poll_s
            end
        | None =>
            sleep poll_s ;;
            wait_workflow_complete_loop polls' api_base prompt_id
                                        deadline poll_s
        end
      else ret false
  end.

Definition wait_workflow_complete (api_base prompt_id : string)
    (timeout_s poll_s : Q) : M bool :=
  t0 <- time_time ;;
  wait_workflow_complete_loop (enough_polls timeout_s poll_s) api_base
                              prompt_id (t0 + timeout_s) poll_s.

Definition DOWNLOADER_DEFAULTS : dict :=
  [("overwrite", JBool true); ("timeout_s", JInt 120); ("retries", JInt 3);
   ("user_agent", JStr "ComfyUI-DaimalyadModelDownloader/1.0")].

Definition run_downloader_workflow (api_base root_base : string) (spec : dict)
  : M bool :=
  url <- get_strip spec "url" ;;
  filename <- get_strip spec "filename" ;;
  subfolder <- get_strip spec "subfolder" ;;
  sha256 <- or_empty_strip (get_default spec "sha256" (JStr "")) ;;
  ensure (negb (String.eqb url "") && negb (String.eqb filename "")
          && negb (String.eqb subfolder ""))
         "[downloader] url/filename/subfolder required" ;;
  let node_id := "20" in
  let inputs :=
    [("url", JStr url); ("subfolder", JStr subfolder);
     ("filename", JStr filename);
     ("overwrite", get_ DOWNLOADER_DEFAULTS "overwrite");
     ("sha256", JStr sha256);
     ("timeout_s", get_ DOWNLOADER_DEFAULTS "timeout_s");
     ("retries", get_ DOWNLOADER_DEFAULTS "retries");
     ("user_agent", get_ DOWNLOADER_DEFAULTS "user_agent")] in
  let graph :=
    [(node_id,
      JDict [("inputs", JDict inputs);
             ("class_type", JStr "DaimalyadModelDownloader");
             ("_meta", JDict [("title", JStr "Model Downloader by DaimAlYad")])])] in
  let payload :=
    JDict [("prompt", JDict graph);
           ("client_id", JStr "bootstrap-nonwhite-installer")] in
  '(ok, resp) <- _prompt_post_try api_base root_base (JsonPayload payload)
                                  "application/json" ;;
  ensure ok ("[downloader] /prompt POST failed: " ++ py_str resp)%string ;;
  match extract_prompt_id resp with
  | None =>
      queue_start api_base ;;
      wait_queue_idle api_base 900 (3 # 2)
  | Some prompt_id =>
      queue_start api_base ;;
      ok <- wait_workflow_complete api_base prompt_id 1800 (3 # 2) ;;
      drained <- wait_queue_idle api_base 300 (3 # 2) ;;
      ret (ok && drained)
  end.

Definition install_nonwhitelisted_model (api_base root_base : string)
    (spec : dict) : M bool :=
  done <- install_nonwhitelisted_model_via_manager api_base spec ;;
  if done then ret true
  else run_downloader_workflow api_base root_base spec.

(** ** Sample catalogs and services for the concrete runs *)

(** No value that the concrete runs convert with [str] is a float, a list
    or a dict. *)
Definition no_repr : jval -> string := fun _ => "".

Definition sd15_catalog : list dict :=
  [ [("name", JStr "SD v1.5"); ("filename", JStr "v1-5-pruned.ckpt");
     ("installed", JStr "False")] ].

Definition sd15_variants_catalog : list dict :=
  [ [("name", JStr "Tuned SD v1.5 (inpainting)");
     ("filename", JStr "sd-v1-5-inpainting.ckpt");
     ("installed", JStr "False")] ].

Definition impact_catalog : list dict :=
  [ [("id", JStr "comfyui-impact-subpack");
     ("title", JStr "ComfyUI Impact Pack Extras");
     ("repository", JStr "https://github.com/ltdrdata/ComfyUI-Impact-Subpack");
     ("state", JStr "not-installed")];
    [("id", JStr "comfyui-impact-pack");
     ("title", JStr "ComfyUI Impact Pack");
     ("repository", JStr "https://github.com/ltdrdata/ComfyUI-Impact-Pack");
     ("state", JStr "enabled")] ].

Definition sample_api : string := "https://ui-abc123/api".
Definition sample_root : string := "https://ui-abc123".

Definition quoted (s : string) : string :=
  (String (ascii_of_nat 34) s ++ String (ascii_of_nat 34) "")%string.

(** A response that took 0.2 s. *)
Definition plain (code : Z) (txt : string) : response :=
  Response code (Body txt None) 200.

Definition queue_status_reply (is_processing : bool) (in_progress_count : Z)
    (took_ms : N) : response :=
  Response 200
    (Body ("{" ++ quoted "is_processing" ++ ": "
           ++ (if is_processing then "true" else "false") ++ ", "
           ++ quoted "in_progress_count" ++ ": "
           ++ string_of_Z in_progress_count ++ "}")%string
          (Some (JDict [("is_processing", JBool is_processing);
                        ("in_progress_count", JInt in_progress_count)])))
    took_ms.

Definition times_asked (url : string) (hist : list event) : nat :=
  List.length (filter (asked url) hist).

(** Answers the enqueue of a node with 503, 503, 200; its queue is idle. *)
Definition flaky_enqueue_service : service :=
  fun hist _ rq =>
    if String.eqb (request_url rq) (sample_api ++ "/manager/queue/install")
    then nth (times_asked (sample_api ++ "/manager/queue/install") hist)
             [plain 503 "Service Unavailable"; plain 503 "Service Unavailable"]
             (plain 200 "")
    else if String.eqb (request_url rq) (sample_api ++ "/manager/queue/status")
    then queue_status_reply false 0 200
    else plain 200 "".

(** Answers every request with 500. *)
Definition failing_service : service :=
  fun _ _ _ => plain 500 "Internal Server Error".

(** Answers the reboot request with 500 seven times, then with 200. *)
Definition late_reboot_service : service :=
  fun hist _ rq =>
    if String.eqb (request_url rq) (sample_api ++ "/manager/reboot")
    then if Nat.ltb (times_asked (sample_api ++ "/manager/reboot") hist) 7
         then plain 500 "Internal Server Error"
         else plain 200 ""
    else plain 200 "".

(** The proxy in front of a rebooting service: 502 to everything. *)
Definition bad_gateway_service : service :=
  fun _ _ _ => plain 502 "Bad Gateway".

(** Answers the queue status request with the empty object. *)
Definition bare_status_service : service :=
  fun _ _ rq =>
    if String.eqb (request_url rq) (sample_api ++ "/manager/queue/status")
    then Response 200 (Body "{}" (Some (JDict []))) 200
    else plain 200 "".

Definition lora_entry (installed : bool) : dict :=
  [("name", JStr "Detail Tweaker LoRA");
   ("filename", JStr "add_detail.safetensors");
   ("base", JStr "SD1.5");
   ("save_path", JStr "loras");
   ("installed", JStr (if installed then "True" else "False"))].

Definition lora_catalog_text (installed : bool) : string :=
  ("[{" ++ quoted "name" ++ ": " ++ quoted "Detail Tweaker LoRA" ++ ", "
   ++ quoted "filename" ++ ": " ++ quoted "add_detail.safetensors" ++ ", "
   ++ quoted "base" ++ ": " ++ quoted "SD1.5" ++ ", "
   ++ quoted "save_path" ++ ": " ++ quoted "loras" ++ ", "
   ++ quoted "installed" ++ ": "
   ++ quoted (if installed then "True" else "False") ++ "}]")%string.

(** Lists one model, installed as soon as its enqueue has been accepted;
    its queue stays busy. *)
Definition model_service : service :=
  fun hist _ rq =>
    if String.eqb (request_url rq)
         (sample_api ++ "/externalmodel/getlist?mode=cache&skip_update=true")
    then
      let installed :=
        Nat.ltb 0 (times_asked (sample_api ++ "/manager/queue/install_model")
                               hist) in
      Response 200 (Body (lora_catalog_text installed)
                         (Some (JList [JDict (lora_entry installed)]))) 200
    else if String.eqb (request_url rq) (sample_api ++ "/manager/queue/status")
    then queue_status_reply true 1 200
    else plain 200 "".

(** Accepts every POST; its queue stays busy and each status request takes
    1000 s to answer. *)
Definition slow_queue_service : service :=
  fun _ _ rq =>
    match rq with
    | POST _ _ _ => plain 200 ""
    | GET url =>
        if String.eqb url (sample_api ++ "/manager/queue/status")
        then queue_status_reply true 1 1000000
        else plain 200 ""
    end.

Definition chroma_spec : dict :=
  [("url", JStr "https://huggingface.co/lodestones/Chroma1-HD/resolve/main/Chroma-HD.safetensors");
   ("filename", JStr "Chroma-HD.safetensors");
   ("subfolder", JStr "diffusion_models");
   ("sha256", JStr "")].

Definition fresh (s : service) : world := World s 0 [].

(** [e] is a POST to [url] that was answered 200. *)
Definition accepted_post (url : string) (e : event) : bool :=
  match e with
  | Requested _ (POST u _ _) rs => String.eqb u url && Z.eqb (status_code rs) 200
  | _ => false
  end.

(** * Properties *)

(** ** The clock *)

Lemma seconds_of_ms_nonneg (n : N) : (0 <= seconds_of_ms n)%Q.
Proof. unfold seconds_of_ms, Qle. cbn. lia. Qed.

Lemma now_advance (w : world) (d : Q) (e : event) :
  (now (advance w d e) == now w + d)%Q.
Proof.
  change (now (advance w d e)) with (Qred (now w + d)). apply Qred_correct.
Qed.

Lemma now_after_request (w : world) (rq : request) :
  (now w <= now (after_request w rq))%Q.
Proof.
  unfold after_request. cbv zeta. rewrite now_advance.
  pose proof (seconds_of_ms_nonneg (elapsed_ms (respond w rq))). lra.
Qed.

Lemma now_after_sleep (w : world) (d : Q) :
  (now (after_sleep w d) == now w + d)%Q.
Proof. unfold after_sleep. apply now_advance. Qed.

Lemma inject_nat_succ (n : nat) :
  (inject_Z (Z.of_nat (S n)) == inject_Z (Z.of_nat n) + 1)%Q.
Proof. rewrite Nat2Z.inj_succ. unfold Z.succ. now rewrite inject_Z_plus. Qed.

Lemma enough_polls_covers (budget step : Q) :
  (0 < step)%Q ->
  (budget <= inject_Z (Z.of_nat (enough_polls budget step)) * step)%Q.
Proof.
  intros Hstep. unfold enough_polls. rewrite inject_nat_succ.
  set (k := Qceiling (budget / step)).
  assert (Hk : (budget / step <= inject_Z (Z.of_nat (Z.to_nat k)))%Q).
  { apply Qle_trans with (inject_Z k); [apply Qle_ceiling|].
    rewrite <- Zle_Qle. lia. }
  assert (Hb : (budget == budget / step * step)%Q).
  { field. intros H0. rewrite H0 in Hstep. now apply Qlt_irrefl in Hstep. }
  rewrite Hb at 1.
  apply Qle_trans with (inject_Z (Z.of_nat (Z.to_nat k)) * step)%Q.
  - apply Qmult_le_compat_r; [exact Hk | now apply Qlt_le_weak].
  - nra.
Qed.

(** ** [wait_queue_idle] *)

Lemma wait_queue_idle_loop_spec (api_base : string) (deadline poll_s : Q)
    (polls : nat) :
  (0 < poll_s)%Q ->
  forall w : world,
    (deadline - now w <= inject_Z (Z.of_nat polls) * poll_s)%Q ->
    exists (b : bool) (w' : world) (evs : list event),
      wait_queue_idle_loop polls api_base deadline poll_s w = (Return b, w')
      /\ remote w' = remote w
      /\ trace w' = trace w ++ evs
      /\ Forall (polled_before api_base deadline) evs
      /\ b = existsb (observed_idle api_base) evs
      /\ (b = true ->
          exists pre t rs, evs = pre ++ [Requested t (GET (api_base ++ "/manager/queue/status")%string) rs]
                           /\ existsb (observed_idle api_base) pre = false)
      /\ (b = false -> (deadline <= now w')%Q).
Proof.
  intros Hpoll.
  induction polls as [|polls IH]; intros w Hfuel.
  - exists false, w, []. cbn [wait_queue_idle_loop ret].
    repeat split; try (now rewrite app_nil_r); [constructor | discriminate |].
    intros _. change (inject_Z (Z.of_nat 0)) with 0%Q in Hfuel. lra.
  - cbn [wait_queue_idle_loop]. unfold bind at 1. unfold time_time at 1.
    destruct (Qlt_le_dec (now w) deadline) as [Hlt | Hge].
    + unfold bind at 1. unfold get at 1, send at 1.
      set (url := (api_base ++ "/manager/queue/status")%string).
      set (rs := respond w (GET url)).
      set (w1 := after_request w (GET url)).
      assert (Htr1 : trace w1 = trace w ++ [Requested (now w) (GET url) rs])
        by reflexivity.
      destruct (Z.eqb (status_code rs) 200 && status_says_idle (resp_body rs))
        eqn:Hidle.
      * exists true, w1, [Requested (now w) (GET url) rs].
        repeat split; try assumption; try discriminate.
        -- constructor; [now split | constructor].
        -- cbn [existsb observed_idle]. fold url.
           now rewrite String.eqb_refl, <- andb_assoc, Hidle.
        -- intros _. now exists [], (now w), rs.
      * unfold bind at 1. unfold sleep at 1.
        set (w2 := after_sleep w1 poll_s).
        destruct (IH w2) as (b & w' & evs & Hrun & Hrem & Htr & Hall & Hb & Htrue & Hfalse).
        { subst w2. rewrite now_after_sleep.
          pose proof (now_after_request w (GET url)). fold w1 in H.
          rewrite inject_nat_succ in Hfuel. nra. }
        exists b, w', (Requested (now w) (GET url) rs :: Slept (now w1) poll_s :: evs).
        repeat split.
        -- exact Hrun.
        -- now rewrite Hrem.
        -- rewrite Htr. subst w2. cbn [after_sleep advance trace].
           rewrite Htr1, <- !app_assoc. reflexivity.
        -- constructor; [now split|]. constructor; [exact I | exact Hall].
        -- cbn [existsb observed_idle is_sleep]. fold url.
           now rewrite String.eqb_refl, <- andb_assoc, Hidle.
        -- intros Hbt. destruct (Htrue Hbt) as (pre & t & rs' & Hevs & Hpre).
           exists (Requested (now w) (GET url) rs :: Slept (now w1) poll_s :: pre), t, rs'.
           split; [now rewrite Hevs|].
           cbn [existsb observed_idle]. fold url.
           now rewrite String.eqb_refl, <- andb_assoc, Hidle.
        -- exact Hfalse.
    + exists false, w, []. cbn [ret].
      repeat split; try (now rewrite app_nil_r);
        [constructor | discriminate | intros _; exact Hge].
Qed.

Lemma wait_queue_idle_loop_S (api_base : string) (deadline poll_s : Q)
    (polls : nat) (w : world) :
  let rq := GET (api_base ++ "/manager/queue/status")%string in
  wait_queue_idle_loop (S polls) api_base deadline poll_s w =
    if Qlt_le_dec (now w) deadline then
      if Z.eqb (status_code (respond w rq)) 200
         && status_says_idle (resp_body (respond w rq))
      then (Return true, after_request w rq)
      else wait_queue_idle_loop polls api_base deadline poll_s
             (after_sleep (after_request w rq) poll_s)
    else (Return false, w).
Proof.
  intros rq. cbn [wait_queue_idle_loop]. unfold bind at 1, time_time at 1.
  destruct (Qlt_le_dec (now w) deadline); [| reflexivity].
  unfold bind at 1, get at 1, send at 1. fold rq.
  destruct (Z.eqb (status_code (respond w rq)) 200
            && status_says_idle (resp_body (respond w rq))); reflexivity.
Qed.

(** The bound on the iterations is never what ends the loop: beyond
    [enough_polls], more iterations change nothing. *)
Lemma wait_queue_idle_loop_more_polls (api_base : string) (deadline poll_s : Q)
    (polls : nat) :
  (0 < poll_s)%Q ->
  forall (extra : nat) (w : world),
    (deadline - now w <= inject_Z (Z.of_nat polls) * poll_s)%Q ->
    wait_queue_idle_loop (polls + extra) api_base deadline poll_s w
    = wait_queue_idle_loop polls api_base deadline poll_s w.
Proof.
  intros Hpoll.
  induction polls as [|polls IH]; intros extra w Hfuel.
  - change (inject_Z (Z.of_nat 0)) with 0%Q in Hfuel.
    destruct extra as [|extra]; [reflexivity|].
    cbn [Nat.add]. rewrite wait_queue_idle_loop_S.
    destruct (Qlt_le_dec (now w) deadline); [lra | reflexivity].
  - cbn [Nat.add]. rewrite !wait_queue_idle_loop_S.
    destruct (Qlt_le_dec (now w) deadline) as [Hlt | Hge]; [| reflexivity].
    set (rq := GET (api_base ++ "/manager/queue/status")%string).
    destruct (Z.eqb (status_code (respond w rq)) 200
              && status_says_idle (resp_body (respond w rq)));
      [reflexivity|].
    apply IH. rewrite now_after_sleep.
    pose proof (now_after_request w rq).
    rewrite inject_nat_succ in Hfuel. nra.
Qed.

Lemma wait_queue_idle_spec (api_base : string) (timeout_s poll_s : Q) (w : world) :
  (0 < poll_s)%Q ->
  exists (b : bool) (w' : world) (evs : list event),
    wait_queue_idle api_base timeout_s poll_s w = (Return b, w')
    /\ remote w' = remote w
    /\ trace w' = trace w ++ evs
    /\ Forall (polled_before api_base (now w + timeout_s)) evs
    /\ b = existsb (observed_idle api_base) evs
    /\ (b = true ->
        exists pre t rs, evs = pre ++ [Requested t (GET (api_base ++ "/manager/queue/status")%string) rs]
                         /\ existsb (observed_idle api_base) pre = false)
    /\ (b = false -> (now w + timeout_s <= now w')%Q).
Proof.
  intros Hpoll. unfold wait_queue_idle, bind, time_time.
  apply wait_queue_idle_loop_spec; [assumption|].
  pose proof (enough_polls_covers timeout_s poll_s Hpoll). lra.
Qed.

Lemma wait_queue_idle_loop_runs (api_base : string) (deadline poll_s : Q)
    (polls : nat) :
  (0 < poll_s)%Q ->
  forall w : world,
    (deadline - now w <= inject_Z (Z.of_nat polls) * poll_s)%Q ->
    exists (b : bool) (w' : world),
      wait_queue_idle_loop polls api_base deadline poll_s w = (Return b, w')
      /\ queue_polls api_base deadline poll_s w b w'.
Proof.
  intros Hpoll.
  induction polls as [|polls IH]; intros w Hfuel.
  - change (inject_Z (Z.of_nat 0)) with 0%Q in Hfuel.
    exists false, w. cbn [wait_queue_idle_loop ret].
    split; [reflexivity|]. apply queue_polls_timeout. lra.
  - rewrite wait_queue_idle_loop_S.
    set (rq := GET (api_base ++ "/manager/queue/status")%string).
    destruct (Qlt_le_dec (now w) deadline) as [Hlt | Hge].
    + destruct (Z.eqb (status_code (respond w rq)) 200
                && status_says_idle (resp_body (respond w rq))) eqn:Hidle.
      * exists true, (after_request w rq). split; [reflexivity|].
        now apply queue_polls_idle.
      * destruct (IH (after_sleep (after_request w rq) poll_s))
          as (b & w' & Hrun & Hpolls).
        { rewrite now_after_sleep.
          pose proof (now_after_request w rq).
          rewrite inject_nat_succ in Hfuel. nra. }
        exists b, w'. split; [exact Hrun|].
        now apply queue_polls_busy.
    + exists false, w. split; [reflexivity|]. now apply queue_polls_timeout.
Qed.

Lemma wait_queue_idle_runs (api_base : string) (timeout_s poll_s : Q) (w : world) :
  (0 < poll_s)%Q ->
  exists (b : bool) (w' : world),
    wait_queue_idle api_base timeout_s poll_s w = (Return b, w')
    /\ queue_polls api_base (now w + timeout_s) poll_s w b w'.
Proof.
  intros Hpoll. unfold wait_queue_idle, bind, time_time.
  apply wait_queue_idle_loop_runs; [assumption|].
  pose proof (enough_polls_covers timeout_s poll_s Hpoll). lra.
Qed.

Lemma wait_queue_idle_first_poll (api_base : string) (timeout_s poll_s : Q)
    (w : world) :
  (0 < timeout_s)%Q ->
  let url := (api_base ++ "/manager/queue/status")%string in
  let rs := respond w (GET url) in
  wait_queue_idle api_base timeout_s poll_s w =
    if Z.eqb (status_code rs) 200 && status_says_idle (resp_body rs)
    then (Return true, after_request w (GET url))
    else wait_queue_idle_loop (pred (enough_polls timeout_s poll_s)) api_base
           (now w + timeout_s) poll_s
           (after_sleep (after_request w (GET url)) poll_s).
Proof.
  intros Htimeout url rs.
  unfold wait_queue_idle, bind at 1, time_time at 1, enough_polls.
  cbn [wait_queue_idle_loop pred]. unfold bind at 1, time_time at 1.
  destruct (Qlt_le_dec (now w) (now w + timeout_s)) as [_ | Hge]; [| lra].
  unfold bind at 1, get at 1, send at 1. fold url. fold rs.
  destruct (Z.eqb (status_code rs) 200 && status_says_idle (resp_body rs));
    reflexivity.
Qed.

Lemma status_says_idle_typed (txt : string) (s : dict) (b : bool) (n : Z) :
  dict_lookup "is_processing" s = Some (JBool b) ->
  dict_lookup "in_progress_count" s = Some (JInt n) ->
  status_says_idle (Body txt (Some (JDict s))) = negb b && Z.eqb n 0.
Proof.
  intros Hp Hc. unfold status_says_idle, json_loads, get_, get_default.
  cbn [decoded]. now rewrite Hp, Hc.
Qed.

(** C2. A 200 answer to the queue status request makes [wait_queue_idle]
    return [True] exactly when its test holds, and otherwise the loop
    sleeps and polls again; for an answer whose [is_processing] is a boolean
    and whose [in_progress_count] is an integer the test holds exactly when
    the former is false and the latter is 0; [is_processing: true] is never
    idle, whatever [in_progress_count] is (or when it is missing). *)
Theorem wait_queue_idle_idle_iff :
  (forall (api_base : string) (timeout_s poll_s : Q) (w : world),
      (0 < timeout_s)%Q ->
      let url := (api_base ++ "/manager/queue/status")%string in
      let rs := respond w (GET url) in
      status_code rs = 200 ->
      (status_says_idle (resp_body rs) = true ->
       wait_queue_idle api_base timeout_s poll_s w
       = (Return true, after_request w (GET url)))
      /\ (status_says_idle (resp_body rs) = false ->
          wait_queue_idle api_base timeout_s poll_s w
          = wait_queue_idle_loop (pred (enough_polls timeout_s poll_s))
              api_base (now w + timeout_s) poll_s
              (after_sleep (after_request w (GET url)) poll_s)))
  /\ (forall (txt : string) (s : dict) (b : bool) (n : Z),
         dict_lookup "is_processing" s = Some (JBool b) ->
         dict_lookup "in_progress_count" s = Some (JInt n) ->
         (status_says_idle (Body txt (Some (JDict s))) = true
          <-> b = false /\ n = 0))
  /\ (forall (txt : string) (s : dict),
         dict_lookup "is_processing" s = Some (JBool true) ->
         status_says_idle (Body txt (Some (JDict s))) = false)
  /\ (forall txt : string,
         status_says_idle
           (Body txt (Some (JDict [("is_processing", JBool false);
                                   ("in_progress_count", JInt 0)]))) = true
         /\ status_says_idle
              (Body txt (Some (JDict [("is_processing", JBool false);
                                      ("in_progress_count", JInt 2)]))) = false).
Proof.
  split; [| split; [| split]].
  - intros api_base timeout_s poll_s w Htimeout url rs Hcode.
    pose proof (wait_queue_idle_first_poll api_base timeout_s poll_s w Htimeout)
      as Hfirst.
    cbv zeta in Hfirst. fold url in Hfirst. fold rs in Hfirst.
    rewrite Hcode in Hfirst. cbn [Z.eqb Pos.eqb andb] in Hfirst.
    split; intros Hidle; rewrite Hidle in Hfirst; exact Hfirst.
  - intros txt s b n Hp Hc.
    rewrite (status_says_idle_typed txt s b n Hp Hc). split.
    + intros H. apply andb_true_iff in H. destruct H as [Hb Hn].
      split; [now destruct b | now apply Z.eqb_eq].
    + now intros [-> ->].
  - intros txt s Hp.
    unfold status_says_idle, json_loads, get_, get_default. cbn [decoded].
    now rewrite Hp.
  - intros txt. split; reflexivity.
Qed.

(** C10. A 200 answer to the queue status request whose JSON object has
    neither [is_processing] nor [in_progress_count] (the empty object, for
    one) passes the test of [wait_queue_idle], which returns [True] on it:
    the missing [is_processing] is [None], the missing count is 0. *)
Theorem wait_queue_idle_missing_fields_idle :
  (forall (txt : string) (s : dict),
      dict_lookup "is_processing" s = None ->
      dict_lookup "in_progress_count" s = None ->
      get_ s "is_processing" = JNull
      /\ get_default s "in_progress_count" (JInt 0) = JInt 0
      /\ status_says_idle (Body txt (Some (JDict s))) = true)
  /\ (forall (api_base : string) (timeout_s poll_s : Q) (w : world),
         (0 < timeout_s)%Q ->
         let url := (api_base ++ "/manager/queue/status")%string in
         let rs := respond w (GET url) in
         status_code rs = 200 ->
         json_loads (resp_body rs) = Some (JDict []) ->
         wait_queue_idle api_base timeout_s poll_s w
         = (Return true, after_request w (GET url))).
Proof.
  split.
  - intros txt s Hp Hc.
    unfold status_says_idle, json_loads, get_, get_default. cbn [decoded].
    now rewrite Hp, Hc.
  - intros api_base timeout_s poll_s w Htimeout url rs Hcode Hjson.
    rewrite (wait_queue_idle_first_poll api_base timeout_s poll_s w Htimeout).
    fold url. fold rs.
    assert (Hidle : status_says_idle (resp_body rs) = true).
    { unfold status_says_idle. now rewrite Hjson. }
    now rewrite Hidle, Hcode.
Qed.

(** ** [wait_for_comfy_ready] *)

Lemma next_backoff_floor (backoff : Q) :
  (3 # 2 <= backoff)%Q -> (3 # 2 <= next_backoff backoff)%Q.
Proof.
  intros H. unfold next_backoff. apply Q.min_glb; lra.
Qed.

Lemma failed_probes_app (api_base : string) (start timeout_s : Q)
    (l1 l2 : list event) :
  failed_probes api_base start timeout_s l1 ->
  failed_probes api_base start timeout_s l2 ->
  failed_probes api_base start timeout_s (l1 ++ l2).
Proof.
  induction 1 as [| ? ? ? ? ? ? ? ? ? ? ? Ht Hc _ IH]; intros H2; [exact H2|].
  cbn [app]. constructor; auto.
Qed.

Lemma wait_for_comfy_ready_loop_spec (api_base : string) (start timeout_s : Q)
    (polls : nat) :
  forall (backoff : Q) (w : world),
    (3 # 2 <= backoff)%Q ->
    (timeout_s - (now w - start) <= inject_Z (Z.of_nat polls) * (3 # 2))%Q ->
    exists (b : bool) (w' : world) (evs : list event),
      wait_for_comfy_ready_loop polls api_base start timeout_s backoff w
      = (Return b, w')
      /\ remote w' = remote w
      /\ trace w' = trace w ++ evs
      /\ (b = true ->
          exists failed t_q t_cn t_em t_m r_q r_cn r_em r_m,
            evs = failed ++
              [Requested t_q (GET (api_base ++ "/queue")%string) r_q;
               Requested t_cn
                 (GET (api_base ++ "/customnode/getlist?mode=cache&skip_update=true")%string)
                 r_cn;
               Requested t_em
                 (GET (api_base ++ "/externalmodel/getlist?mode=cache&skip_update=true")%string)
                 r_em;
               Requested t_m
                 (GET (api_base ++ "/model/getlist?mode=cache&skip_update=true")%string)
                 r_m]
            /\ failed_probes api_base start timeout_s failed
            /\ (t_q - start < timeout_s)%Q
            /\ status_code r_q = 200
            /\ (status_code r_cn = 200 \/ status_code r_em = 200
                \/ status_code r_m = 200))
      /\ (b = false ->
          failed_probes api_base start timeout_s evs
          /\ (timeout_s <= now w' - start)%Q).
Proof.
  induction polls as [|polls IH]; intros backoff w Hback Hfuel.
  - exists false, w, []. cbn [wait_for_comfy_ready_loop ret].
    split; [reflexivity|]. split; [reflexivity|].
    split; [now rewrite app_nil_r|]. split; [discriminate|].
    intros _. split; [constructor|].
    change (inject_Z (Z.of_nat 0)) with 0%Q in Hfuel. lra.
  - cbn [wait_for_comfy_ready_loop]. unfold bind at 1, time_time at 1.
    destruct (Qlt_le_dec (now w - start) timeout_s) as [Hlt | Hge].
    + set (u_q := (api_base ++ "/queue")%string).
      set (u_cn := (api_base ++ "/customnode/getlist?mode=cache&skip_update=true")%string).
      set (u_em := (api_base ++ "/externalmodel/getlist?mode=cache&skip_update=true")%string).
      set (u_m := (api_base ++ "/model/getlist?mode=cache&skip_update=true")%string).
      unfold bind at 1, get at 1, send at 1.
      set (w1 := after_request w (GET u_q)).
      unfold bind at 1, get at 1, send at 1.
      set (w2 := after_request w1 (GET u_cn)).
      unfold bind at 1, get at 1, send at 1.
      set (w3 := after_request w2 (GET u_em)).
      unfold bind at 1, get at 1, send at 1.
      set (w4 := after_request w3 (GET u_m)).
      set (r_q := respond w (GET u_q)). set (r_cn := respond w1 (GET u_cn)).
      set (r_em := respond w2 (GET u_em)). set (r_m := respond w3 (GET u_m)).
      assert (Htr4 : trace w4 = trace w ++
                [Requested (now w) (GET u_q) r_q;
                 Requested (now w1) (GET u_cn) r_cn;
                 Requested (now w2) (GET u_em) r_em;
                 Requested (now w3) (GET u_m) r_m]).
      { subst w4 w3 w2 w1. cbn [after_request advance trace].
        rewrite <- !app_assoc. reflexivity. }
      assert (Hnow4 : (now w <= now w4)%Q).
      { pose proof (now_after_request w (GET u_q)).
        pose proof (now_after_request w1 (GET u_cn)).
        pose proof (now_after_request w2 (GET u_em)).
        pose proof (now_after_request w3 (GET u_m)).
        fold w1 in H. fold w2 in H0. fold w3 in H1. fold w4 in H2. lra. }
      destruct (ok (status_code r_q)
                && (ok (status_code r_cn) || ok (status_code r_em)
                    || ok (status_code r_m))) eqn:Hmet.
      * exists true, w4, [Requested (now w) (GET u_q) r_q;
                          Requested (now w1) (GET u_cn) r_cn;
                          Requested (now w2) (GET u_em) r_em;
                          Requested (now w3) (GET u_m) r_m].
        split; [reflexivity|]. split; [reflexivity|]. split; [exact Htr4|].
        split; [| discriminate].
        intros _.
        exists [], (now w), (now w1), (now w2), (now w3), r_q, r_cn, r_em, r_m.
        split; [reflexivity|]. split; [constructor|]. split; [exact Hlt|].
        apply andb_true_iff in Hmet. destruct Hmet as [Hq Hany].
        unfold ok in *. rewrite !orb_true_iff, !Z.eqb_eq in Hany.
        apply Z.eqb_eq in Hq. tauto.
      * unfold bind at 1, sleep at 1.
        set (w5 := after_sleep w4 backoff).
        destruct (IH (next_backoff backoff) w5)
          as (b & w' & evs & Hrun & Hrem & Htr & Htrue & Hfalse).
        { now apply next_backoff_floor. }
        { subst w5. rewrite now_after_sleep.
          rewrite inject_nat_succ in Hfuel. nra. }
        assert (Hthis : failed_probes api_base start timeout_s
                  [Requested (now w) (GET u_q) r_q;
                   Requested (now w1) (GET u_cn) r_cn;
                   Requested (now w2) (GET u_em) r_em;
                   Requested (now w3) (GET u_m) r_m;
                   Slept (now w4) backoff]).
        { constructor; [exact Hlt | exact Hmet | constructor]. }
        exists b, w',
          ([Requested (now w) (GET u_q) r_q;
            Requested (now w1) (GET u_cn) r_cn;
            Requested (now w2) (GET u_em) r_em;
            Requested (now w3) (GET u_m) r_m;
            Slept (now w4) backoff] ++ evs).
        split; [exact Hrun|]. split; [now rewrite Hrem|].
        split.
        { rewrite Htr. subst w5. cbn [after_sleep advance trace].
          rewrite Htr4, <- !app_assoc. reflexivity. }
        split.
        { intros Hb.
          destruct (Htrue Hb)
            as (failed & t_q & t_cn & t_em & t_m & r1 & r2 & r3 & r4
                & Hevs & Hfailed & Hrest).
          exists ([Requested (now w) (GET u_q) r_q;
                   Requested (now w1) (GET u_cn) r_cn;
                   Requested (now w2) (GET u_em) r_em;
                   Requested (now w3) (GET u_m) r_m;
                   Slept (now w4) backoff] ++ failed),
            t_q, t_cn, t_em, t_m, r1, r2, r3, r4.
          split; [now rewrite Hevs, <- app_assoc|].
          split; [now apply failed_probes_app | exact Hrest]. }
        { intros Hb. destruct (Hfalse Hb) as [Hfailed Hnow].
          split; [now apply failed_probes_app | exact Hnow]. }
    + exists false, w, []. cbn [ret].
      split; [reflexivity|]. split; [reflexivity|].
      split; [now rewrite app_nil_r|]. split; [discriminate|].
      intros _. split; [constructor | exact Hge].
Qed.

Lemma wait_for_comfy_ready_loop_S (api_base : string) (start timeout_s : Q)
    (polls : nat) (backoff : Q) (w : world) :
  let w1 := after_request w (GET (api_base ++ "/queue")%string) in
  let w2 := after_request w1
    (GET (api_base ++ "/customnode/getlist?mode=cache&skip_update=true")%string) in
  let w3 := after_request w2
    (GET (api_base ++ "/externalmodel/getlist?mode=cache&skip_update=true")%string) in
  let w4 := after_request w3
    (GET (api_base ++ "/model/getlist?mode=cache&skip_update=true")%string) in
  wait_for_comfy_ready_loop (S polls) api_base start timeout_s backoff w =
    if Qlt_le_dec (now w - start) timeout_s then
      if ok (status_code (respond w (GET (api_base ++ "/queue")%string)))
         && (ok (status_code (respond w1
               (GET (api_base ++ "/customnode/getlist?mode=cache&skip_update=true")%string)))
             || ok (status_code (respond w2
                  (GET (api_base ++ "/externalmodel/getlist?mode=cache&skip_update=true")%string)))
             || ok (status_code (respond w3
                  (GET (api_base ++ "/model/getlist?mode=cache&skip_update=true")%string))))
      then (Return true, w4)
      else wait_for_comfy_ready_loop polls api_base start timeout_s
             (next_backoff backoff) (after_sleep w4 backoff)
    else (Return false, w).
Proof.
  intros w1 w2 w3 w4. cbn [wait_for_comfy_ready_loop].
  unfold bind at 1, time_time at 1.
  destruct (Qlt_le_dec (now w - start) timeout_s); [| reflexivity].
  unfold bind at 1, get at 1, send at 1. fold w1.
  unfold bind at 1, get at 1, send at 1. fold w2.
  unfold bind at 1, get at 1, send at 1. fold w3.
  unfold bind at 1, get at 1, send at 1. fold w4.
  match goal with |- context [if ?c then ret true else _] => destruct c end;
    reflexivity.
Qed.

Lemma wait_for_comfy_ready_loop_more_polls (api_base : string)
    (start timeout_s : Q) (polls : nat) :
  forall (extra : nat) (backoff : Q) (w : world),
    (3 # 2 <= backoff)%Q ->
    (timeout_s - (now w - start) <= inject_Z (Z.of_nat polls) * (3 # 2))%Q ->
    wait_for_comfy_ready_loop (polls + extra) api_base start timeout_s backoff w
    = wait_for_comfy_ready_loop polls api_base start timeout_s backoff w.
Proof.
  induction polls as [|polls IH]; intros extra backoff w Hback Hfuel.
  - change (inject_Z (Z.of_nat 0)) with 0%Q in Hfuel.
    destruct extra as [|extra]; [reflexivity|].
    cbn [Nat.add]. rewrite wait_for_comfy_ready_loop_S.
    destruct (Qlt_le_dec (now w - start) timeout_s); [lra | reflexivity].
  - cbn [Nat.add]. rewrite !wait_for_comfy_ready_loop_S.
    destruct (Qlt_le_dec (now w - start) timeout_s) as [Hlt | Hge];
      [| reflexivity].
    set (w1 := after_request w (GET (api_base ++ "/queue")%string)).
    set (w2 := after_request w1
      (GET (api_base ++ "/customnode/getlist?mode=cache&skip_update=true")%string)).
    set (w3 := after_request w2
      (GET (api_base ++ "/externalmodel/getlist?mode=cache&skip_update=true")%string)).
    set (w4 := after_request w3
      (GET (api_base ++ "/model/getlist?mode=cache&skip_update=true")%string)).
    match goal with |- (if ?c then _ else _) = _ => destruct c end;
      [reflexivity|].
    apply IH; [now apply next_backoff_floor|].
    rewrite now_after_sleep.
    pose proof (now_after_request w (GET (api_base ++ "/queue")%string)).
    pose proof (now_after_request w1
      (GET (api_base ++ "/customnode/getlist?mode=cache&skip_update=true")%string)).
    pose proof (now_after_request w2
      (GET (api_base ++ "/externalmodel/getlist?mode=cache&skip_update=true")%string)).
    pose proof (now_after_request w3
      (GET (api_base ++ "/model/getlist?mode=cache&skip_update=true")%string)).
    fold w1 in H. fold w2 in H0. fold w3 in H1. fold w4 in H2.
    rewrite inject_nat_succ in Hfuel. nra.
Qed.

(** C8. [wait_for_comfy_ready] never raises.  It returns [True] only at an
    iteration begun within the budget whose queue probe answered 200 and one
    of whose three catalog probes answered 200, all earlier iterations having
    failed that test; it returns [False] only once the budget has elapsed,
    every iteration having failed the test. *)
Theorem wait_for_comfy_ready_result (api_base : string)
    (initial_sleep timeout_s : Q) (w : world) :
  let w_s := if Qlt_le_dec 0 initial_sleep then after_sleep w initial_sleep
             else w in
  let start := now w_s in
  exists (b : bool) (w' : world) (evs : list event),
    wait_for_comfy_ready api_base initial_sleep timeout_s w = (Return b, w')
    /\ trace w' = trace w_s ++ evs
    /\ (b = true ->
        exists failed t_q t_cn t_em t_m r_q r_cn r_em r_m,
          evs = failed ++
            [Requested t_q (GET (api_base ++ "/queue")%string) r_q;
             Requested t_cn
               (GET (api_base ++ "/customnode/getlist?mode=cache&skip_update=true")%string)
               r_cn;
             Requested t_em
               (GET (api_base ++ "/externalmodel/getlist?mode=cache&skip_update=true")%string)
               r_em;
             Requested t_m
               (GET (api_base ++ "/model/getlist?mode=cache&skip_update=true")%string)
               r_m]
          /\ failed_probes api_base start timeout_s failed
          /\ (t_q - start < timeout_s)%Q
          /\ status_code r_q = 200
          /\ (status_code r_cn = 200 \/ status_code r_em = 200
              \/ status_code r_m = 200))
    /\ (b = false ->
        failed_probes api_base start timeout_s evs
        /\ (timeout_s <= now w' - start)%Q).
Proof.
  intros w_s start.
  assert (Hrun : wait_for_comfy_ready api_base initial_sleep timeout_s w
                 = wait_for_comfy_ready_loop (enough_polls timeout_s (3 # 2))
                     api_base start timeout_s (3 # 2) w_s).
  { unfold wait_for_comfy_ready, bind at 1. subst start w_s.
    destruct (Qlt_le_dec 0 initial_sleep); reflexivity. }
  destruct (wait_for_comfy_ready_loop_spec api_base start timeout_s
              (enough_polls timeout_s (3 # 2)) (3 # 2)%Q w_s)
    as (b & w' & evs & Hloop & _ & Htr & Htrue & Hfalse).
  { lra. }
  { pose proof (enough_polls_covers timeout_s (3 # 2)).
    subst start. lra. }
  exists b, w', evs. rewrite Hrun. auto.
Qed.

(** ** The enqueue loop of [install_node_by_query] *)

Lemma is_transient_In (code : Z) :
  is_transient code = true <-> In code transient_codes.
Proof.
  unfold is_transient. rewrite existsb_exists. split.
  - intros (c & Hin & Heq). apply Z.eqb_eq in Heq. now subst.
  - intros Hin. exists code. split; [assumption | apply Z.eqb_refl].
Qed.

Lemma transient_not_200 (code : Z) :
  In code transient_codes -> Z.eqb code 200 = false.
Proof.
  unfold transient_codes. cbn [In].
  intros H. apply Z.eqb_neq. intuition lia.
Qed.

Lemma node_enqueue_loop_step (remaining : nat) (api_base : string)
    (payload : payload) (backoff : Q) (w : world) :
  let rq := POST (api_base ++ "/manager/queue/install")%string payload
                 "text/plain;charset=UTF-8" in
  let rs := respond w rq in
  node_enqueue_loop (S remaining) api_base payload backoff w =
    if Z.eqb (status_code rs) 200 then
      (queue_start api_base ;; wait_queue_idle api_base 180 (3 # 2))
        (after_request w rq)
    else if is_transient (status_code rs) then
      node_enqueue_loop remaining api_base payload (next_backoff backoff)
                        (after_sleep (after_request w rq) backoff)
    else
      (Raise (RuntimeError ("[nodes] enqueue failed "
                            ++ string_of_Z (status_code rs) ++ ": "
                            ++ text (resp_body rs))%string),
       after_request w rq).
Proof.
  intros rq rs. cbn [node_enqueue_loop].
  unfold bind at 1, post at 1, send at 1. fold rq. fold rs.
  destruct (Z.eqb (status_code rs) 200); [reflexivity|].
  destruct (is_transient (status_code rs)); reflexivity.
Qed.

Lemma node_enqueue_loop_exhausts (api_base : string) (payload : payload)
    (remaining : nat) :
  let rq := POST (api_base ++ "/manager/queue/install")%string payload
                 "text/plain;charset=UTF-8" in
  forall (backoff : Q) (w : world),
    answers_transient remaining rq backoff w ->
    exists (w' : world) (evs : list event),
      node_enqueue_loop remaining api_base payload backoff w = (Return false, w')
      /\ trace w' = trace w ++ evs
      /\ List.length (filter (asked (request_url rq)) evs) = remaining
      /\ List.length (filter is_sleep evs) = remaining
      /\ List.length evs = (2 * remaining)%nat.
Proof.
  intros rq. induction remaining as [|remaining IH]; intros backoff w Htrans.
  - exists w, []. cbn. repeat split. now rewrite app_nil_r.
  - pose proof (node_enqueue_loop_step remaining api_base payload backoff w)
      as Hstep.
    cbv zeta in Hstep. fold rq in Hstep.
    destruct Htrans as [Hcode Hrest].
    rewrite (transient_not_200 _ Hcode) in Hstep.
    rewrite (proj2 (is_transient_In _) Hcode) in Hstep.
    set (w2 := after_sleep (after_request w rq) backoff) in *.
    destruct (IH (next_backoff backoff) w2 Hrest)
      as (w' & evs & Hrun & Htr & Hposts & Hsleeps & Hlen).
    exists w', (Requested (now w) rq (respond w rq)
                :: Slept (now (after_request w rq)) backoff :: evs).
    rewrite Hstep. split; [exact Hrun|].
    split; [| split; [| split]].
    + rewrite Htr. subst w2. cbn [after_sleep after_request advance trace].
      rewrite <- !app_assoc. reflexivity.
    + cbn [filter asked is_sleep]. rewrite String.eqb_refl.
      cbn [List.length]. now rewrite Hposts.
    + cbn [filter asked is_sleep List.length]. now rewrite Hsleeps.
    + cbn [List.length]. lia.
Qed.

Lemma always_transient_answers (rq : request) (n : nat) :
  forall (backoff : Q) (w : world),
    (forall hist t, In (status_code (remote w hist t rq)) transient_codes) ->
    answers_transient n rq backoff w.
Proof.
  induction n as [|n IH]; intros backoff w Hall; [exact I|].
  split; [apply Hall | apply IH; exact Hall].
Qed.

(** C1. In the enqueue loop of [install_node_by_query]: a transient status
    (404, 409, 429, 500, 502, 503, 504) makes the loop sleep [backoff] and
    try again while attempts remain; a status that is neither 200 nor
    transient raises at once a [RuntimeError] whose message ends with the
    response text; on the answers 503, 503, 200 the third POST is accepted
    after sleeps of 1.5 and 2.55, the queue is started and the result is
    that of [wait_queue_idle], [True] when the queue then reports idle; when
    the six answers it gets are all transient (as from a service that only
    ever answers transient codes) the operation returns [False] after
    exactly 6 POSTs and 6 sleeps, without raising. *)
Theorem node_enqueue_retry_policy :
  (forall (remaining : nat) (api_base : string) (payload : payload)
          (backoff : Q) (w : world),
      let rq := POST (api_base ++ "/manager/queue/install")%string payload
                     "text/plain;charset=UTF-8" in
      In (status_code (respond w rq)) transient_codes ->
      node_enqueue_loop (S remaining) api_base payload backoff w
      = node_enqueue_loop remaining api_base payload (next_backoff backoff)
          (after_sleep (after_request w rq) backoff))
  /\ (forall (remaining : nat) (api_base : string) (payload : payload)
             (backoff : Q) (w : world),
         let rq := POST (api_base ++ "/manager/queue/install")%string payload
                        "text/plain;charset=UTF-8" in
         let rs := respond w rq in
         status_code rs <> 200 ->
         ~ In (status_code rs) transient_codes ->
         node_enqueue_loop (S remaining) api_base payload backoff w
         = (Raise (RuntimeError ("[nodes] enqueue failed "
                                 ++ string_of_Z (status_code rs) ++ ": "
                                 ++ text (resp_body rs))%string),
            after_request w rq))
  /\ (forall (api_base : string) (entry : dict) (w : world),
         let rq := POST (api_base ++ "/manager/queue/install")%string
                        (JsonPayload (JDict entry)) "text/plain;charset=UTF-8" in
         let w0 := after_request w (GET (api_base ++ "/manager/queue/reset")%string) in
         status_code (respond w0 rq) = 503 ->
         let w1 := after_sleep (after_request w0 rq) (3 # 2) in
         status_code (respond w1 rq) = 503 ->
         let w2 := after_sleep (after_request w1 rq) (51 # 20) in
         status_code (respond w2 rq) = 200 ->
         let w3 := after_request (after_request w2 rq)
                     (GET (api_base ++ "/manager/queue/start")%string) in
         let poll := GET (api_base ++ "/manager/queue/status")%string in
         install_node_by_query_enqueue api_base entry w
         = wait_queue_idle api_base 180 (3 # 2) w3
         /\ (status_code (respond w3 poll) = 200 ->
             status_says_idle (resp_body (respond w3 poll)) = true ->
             install_node_by_query_enqueue api_base entry w
             = (Return true, after_request w3 poll)))
  /\ (forall (api_base : string) (entry : dict) (w : world),
         let rq := POST (api_base ++ "/manager/queue/install")%string
                        (JsonPayload (JDict entry)) "text/plain;charset=UTF-8" in
         answers_transient 6 rq (3 # 2)
           (after_request w (GET (api_base ++ "/manager/queue/reset")%string)) ->
         exists (w' : world) (evs : list event),
           install_node_by_query_enqueue api_base entry w = (Return false, w')
           /\ trace w' = trace w ++ evs
           /\ List.length (filter (asked (request_url rq)) evs) = 6%nat
           /\ List.length (filter is_sleep evs) = 6%nat)
  /\ (forall (rq : request) (n : nat) (backoff : Q) (w : world),
         (forall hist t, In (status_code (remote w hist t rq)) transient_codes) ->
         answers_transient n rq backoff w).
Proof.
  split; [| split; [| split; [| split]]].
  - intros remaining api_base payload backoff w rq Hcode.
    pose proof (node_enqueue_loop_step remaining api_base payload backoff w)
      as Hstep.
    cbv zeta in Hstep. fold rq in Hstep.
    now rewrite (transient_not_200 _ Hcode),
                (proj2 (is_transient_In _) Hcode) in Hstep.
  - intros remaining api_base payload backoff w rq rs Hnot200 Hhard.
    pose proof (node_enqueue_loop_step remaining api_base payload backoff w)
      as Hstep.
    cbv zeta in Hstep. fold rq in Hstep. fold rs in Hstep.
    apply Z.eqb_neq in Hnot200. rewrite Hnot200 in Hstep.
    destruct (is_transient (status_code rs)) eqn:Htr; [| exact Hstep].
    apply is_transient_In in Htr. contradiction.
  - intros api_base entry w rq w0 H1 w1 H2 w2 H3 w3 poll.
    assert (Hrun : install_node_by_query_enqueue api_base entry w
                   = wait_queue_idle api_base 180 (3 # 2) w3).
    { unfold install_node_by_query_enqueue, bind at 1, queue_reset at 1,
        bind at 1, get at 1, send at 1. cbn [ret]. fold w0.
      rewrite node_enqueue_loop_step. fold rq. rewrite H1.
      cbn [Z.eqb Pos.eqb is_transient existsb transient_codes orb].
      rewrite node_enqueue_loop_step. fold rq. fold w1. rewrite H2.
      cbn [Z.eqb Pos.eqb is_transient existsb transient_codes orb].
      change (next_backoff (3 # 2)) with (51 # 20)%Q.
      rewrite node_enqueue_loop_step. fold rq. fold w2. rewrite H3.
      cbn [Z.eqb Pos.eqb].
      reflexivity. }
    split; [exact Hrun|].
    intros Hcode Hidle. rewrite Hrun.
    rewrite wait_queue_idle_first_poll by reflexivity.
    fold poll. now rewrite Hcode, Hidle.
  - intros api_base entry w rq Htrans.
    set (w0 := after_request w (GET (api_base ++ "/manager/queue/reset")%string)).
    destruct (node_enqueue_loop_exhausts api_base (JsonPayload (JDict entry)) 6
                (3 # 2)%Q w0 Htrans)
      as (w' & evs & Hrun & Htr & Hposts & Hsleeps & _).
    exists w', (Requested (now w) (GET (api_base ++ "/manager/queue/reset")%string)
                  (respond w (GET (api_base ++ "/manager/queue/reset")%string))
                :: evs).
    split; [| split; [| split]].
    + unfold install_node_by_query_enqueue, bind at 1, queue_reset at 1,
        bind at 1, get at 1, send at 1. cbn [ret]. exact Hrun.
    + rewrite Htr. subst w0. cbn [after_request advance trace].
      now rewrite <- app_assoc.
    + cbn [filter asked request_url].
      change (request_url rq)
        with (api_base ++ "/manager/queue/install")%string in *.
      destruct (String.eqb (api_base ++ "/manager/queue/reset")
                           (api_base ++ "/manager/queue/install")) eqn:Heq.
      * apply String.eqb_eq in Heq. exfalso. revert Heq. clear.
        induction api_base as [|c r IH]; cbn; [discriminate|].
        intros H. injection H as H. auto.
      * exact Hposts.
    + cbn [filter is_sleep]. exact Hsleeps.
  - intros rq n backoff w Hall. now apply always_transient_answers.
Qed.

(** ** The request phase of [reboot_comfy_cycle] *)

Lemma reboot_request_loop_step (remaining : nat) (api_base : string)
    (backoff : Q) (last_err : option string) (w : world) :
  let rq := GET (api_base ++ "/manager/reboot")%string in
  let rs := respond w rq in
  let err := (string_of_Z (status_code rs) ++ ": "
              ++ substring 0 160 (text (resp_body rs)))%string in
  reboot_request_loop (S remaining) api_base backoff last_err w =
    if Z.eqb (status_code rs) 200 then
      (Return (true, last_err), after_request w rq)
    else if existsb (Z.eqb (status_code rs)) reboot_accepting_codes then
      (Return (true, Some err), after_request w rq)
    else
      reboot_request_loop remaining api_base (next_backoff backoff) (Some err)
                          (after_sleep (after_request w rq) backoff).
Proof.
  intros rq rs err. cbn [reboot_request_loop].
  unfold bind at 1, get at 1, send at 1. fold rq. fold rs. fold err.
  destruct (Z.eqb (status_code rs) 200); [reflexivity|].
  destruct (existsb (Z.eqb (status_code rs)) reboot_accepting_codes);
    reflexivity.
Qed.

Lemma reboot_accepted_code_dec (code : Z) :
  reboot_accepted_code code
  <-> Z.eqb code 200 || existsb (Z.eqb code) reboot_accepting_codes = true.
Proof.
  unfold reboot_accepted_code, reboot_accepting_codes.
  cbn [existsb In]. rewrite !orb_true_iff, !Z.eqb_eq. intuition congruence.
Qed.

Lemma reboot_request_loop_exhausts (api_base : string) (remaining : nat) :
  let rq := GET (api_base ++ "/manager/reboot")%string in
  forall (backoff : Q) (last_err : option string) (w : world),
    answers_unaccepted remaining rq backoff w ->
    exists (w' : world) (evs : list event) (last_err' : option string),
      reboot_request_loop remaining api_base backoff last_err w
      = (Return (false, last_err'), w')
      /\ (last_err = None -> remaining = O -> last_err' = None)
      /\ (remaining <> O -> last_err' <> None)
      /\ trace w' = trace w ++ evs
      /\ List.length (filter (asked (request_url rq)) evs) = remaining
      /\ List.length (filter is_sleep evs) = remaining
      /\ List.length evs = (2 * remaining)%nat.
Proof.
  intros rq.
  induction remaining as [|remaining IH]; intros backoff last_err w Hnever.
  - exists w, [], last_err. cbn. repeat split; auto; try congruence.
    now rewrite app_nil_r.
  - pose proof (reboot_request_loop_step remaining api_base backoff last_err w)
      as Hstep.
    cbv zeta in Hstep. fold rq in Hstep.
    destruct Hnever as [Hcode Hrest].
    rewrite reboot_accepted_code_dec in Hcode.
    apply not_true_is_false, orb_false_iff in Hcode.
    destruct Hcode as [H200 Hproxy]. rewrite H200, Hproxy in Hstep.
    set (err := (string_of_Z (status_code (respond w rq)) ++ ": "
                 ++ substring 0 160 (text (resp_body (respond w rq))))%string) in *.
    set (w2 := after_sleep (after_request w rq) backoff) in *.
    destruct (IH (next_backoff backoff) (Some err) w2 Hrest)
      as (w' & evs & last_err' & Hrun & _ & Hsome & Htr & Hreqs & Hsleeps & Hlen).
    assert (Hlast : last_err' <> None).
    { destruct remaining as [|k]; [| apply Hsome; discriminate].
      cbn [reboot_request_loop ret] in Hrun. inversion Hrun. discriminate. }
    exists w', (Requested (now w) rq (respond w rq)
                :: Slept (now (after_request w rq)) backoff :: evs), last_err'.
    rewrite Hstep. split; [exact Hrun|].
    split; [discriminate|]. split; [intros _; exact Hlast|].
    split; [| split; [| split]].
    + rewrite Htr. subst w2. cbn [after_sleep after_request advance trace].
      rewrite <- !app_assoc. reflexivity.
    + cbn [filter asked is_sleep]. rewrite String.eqb_refl.
      cbn [List.length]. now rewrite Hreqs.
    + cbn [filter asked is_sleep List.length]. now rewrite Hsleeps.
    + cbn [List.length]. lia.
Qed.

Lemma never_accepted_answers (rq : request) (n : nat) :
  forall (backoff : Q) (w : world),
    (forall hist t, ~ reboot_accepted_code (status_code (remote w hist t rq))) ->
    answers_unaccepted n rq backoff w.
Proof.
  induction n as [|n IH]; intros backoff w Hall; [exact I|].
  split; [apply Hall | apply IH; exact Hall].
Qed.

Lemma reboot_request_loop_accepts (remaining : nat) (api_base : string)
    (backoff : Q) (last_err : option string) (w : world) :
  let rq := GET (api_base ++ "/manager/reboot")%string in
  let rs := respond w rq in
  reboot_accepted_code (status_code rs) ->
  reboot_request_loop (S remaining) api_base backoff last_err w
  = (Return (true,
             if Z.eqb (status_code rs) 200 then last_err
             else Some (string_of_Z (status_code rs) ++ ": "
                        ++ substring 0 160 (text (resp_body rs)))%string),
     after_request w rq).
Proof.
  intros rq rs Hacc. apply reboot_accepted_code_dec in Hacc.
  rewrite reboot_request_loop_step. fold rq. fold rs.
  destruct (Z.eqb (status_code rs) 200); [reflexivity|].
  cbn [orb] in Hacc. now rewrite Hacc.
Qed.

Lemma reboot_request_loop_retries (api_base : string) (retries : nat) :
  let rq := GET (api_base ++ "/manager/reboot")%string in
  forall (remaining : nat) (backoff : Q) (last_err : option string) (w : world),
    answers_unaccepted retries rq backoff w ->
    reboot_accepted_code
      (status_code (respond (after_retries retries rq backoff w) rq)) ->
    exists last_err' : option string,
      reboot_request_loop (retries + S remaining) api_base backoff last_err w
      = (Return (true, last_err'),
         after_request (after_retries retries rq backoff w) rq).
Proof.
  intros rq.
  induction retries as [|retries IH]; intros remaining backoff last_err w Hrej Hacc.
  - cbn [after_retries] in *. cbn [Nat.add].
    eexists. now apply reboot_request_loop_accepts.
  - destruct Hrej as [Hcode Hrest]. cbn [after_retries] in *. cbn [Nat.add].
    rewrite reboot_accepted_code_dec in Hcode.
    apply not_true_is_false, orb_false_iff in Hcode.
    destruct Hcode as [H200 Hproxy].
    rewrite reboot_request_loop_step. fold rq. rewrite H200, Hproxy.
    now apply IH.
Qed.

Lemma after_retries_trace (rq : request) (retries : nat) :
  forall (backoff : Q) (w : world),
    exists evs : list event,
      trace (after_retries retries rq backoff w) = trace w ++ evs
      /\ List.length (filter (asked (request_url rq)) evs) = retries
      /\ List.length (filter is_sleep evs) = retries
      /\ List.length evs = (2 * retries)%nat.
Proof.
  induction retries as [|retries IH]; intros backoff w.
  - exists []. cbn. now rewrite app_nil_r.
  - cbn [after_retries].
    destruct (IH (next_backoff backoff) (after_sleep (after_request w rq) backoff))
      as (evs & Htr & Hreqs & Hsleeps & Hlen).
    exists (Requested (now w) rq (respond w rq)
            :: Slept (now (after_request w rq)) backoff :: evs).
    split; [| split; [| split]].
    + rewrite Htr. cbn [after_sleep after_request advance trace].
      rewrite <- !app_assoc. reflexivity.
    + cbn [filter asked is_sleep]. rewrite String.eqb_refl.
      cbn [List.length]. now rewrite Hreqs.
    + cbn [filter asked is_sleep List.length]. now rewrite Hsleeps.
    + cbn [List.length]. lia.
Qed.

(** C9. In the request phase of [reboot_comfy_cycle]: an answer 200, 502,
    503 or 504 to the reboot request is accepted and the cycle goes on with
    downtime detection, at the first attempt as at any later one (the eighth
    included); any other status makes the loop sleep [backoff] and ask again
    while attempts remain; when none of the 8 answers it gets is accepted
    (as from a service that never answers with an accepted code) the cycle
    raises a [RuntimeError] after the eighth, having sent exactly 8 reboot
    requests and nothing else. *)
Theorem reboot_request_phase :
  (forall (api_base : string) (extra_wait_after_up_s : Q) (total_timeout_s : Z)
          (w : world),
      let rq := GET (api_base ++ "/manager/reboot")%string in
      reboot_accepted_code (status_code (respond w rq)) ->
      reboot_comfy_cycle api_base extra_wait_after_up_s total_timeout_s w
      = reboot_phases api_base extra_wait_after_up_s total_timeout_s
          (after_request w rq))
  /\ (forall (remaining : nat) (api_base : string) (backoff : Q)
             (last_err : option string) (w : world),
         let rq := GET (api_base ++ "/manager/reboot")%string in
         let rs := respond w rq in
         ~ reboot_accepted_code (status_code rs) ->
         reboot_request_loop (S remaining) api_base backoff last_err w
         = reboot_request_loop remaining api_base (next_backoff backoff)
             (Some (string_of_Z (status_code rs) ++ ": "
                    ++ substring 0 160 (text (resp_body rs)))%string)
             (after_sleep (after_request w rq) backoff))
  /\ (forall (api_base : string) (extra_wait_after_up_s : Q)
             (total_timeout_s : Z) (w : world),
         let rq := GET (api_base ++ "/manager/reboot")%string in
         answers_unaccepted 8 rq (3 # 2) w ->
         exists (w' : world) (evs : list event) (last_err : string),
           reboot_comfy_cycle api_base extra_wait_after_up_s total_timeout_s w
           = (Raise (RuntimeError ("[reboot] could not initiate reboot: "
                                   ++ last_err)%string), w')
           /\ trace w' = trace w ++ evs
           /\ List.length (filter (asked (request_url rq)) evs) = 8%nat
           /\ List.length (filter is_sleep evs) = 8%nat
           /\ List.length evs = 16%nat)
  /\ (forall (rq : request) (n : nat) (backoff : Q) (w : world),
         (forall hist t,
             ~ reboot_accepted_code (status_code (remote w hist t rq))) ->
         answers_unaccepted n rq backoff w)
  /\ (forall (remaining : nat) (api_base : string) (backoff : Q)
             (last_err : option string) (w : world),
         let rq := GET (api_base ++ "/manager/reboot")%string in
         let rs := respond w rq in
         reboot_accepted_code (status_code rs) ->
         reboot_request_loop (S remaining) api_base backoff last_err w
         = (Return (true,
                    if Z.eqb (status_code rs) 200 then last_err
                    else Some (string_of_Z (status_code rs) ++ ": "
                               ++ substring 0 160 (text (resp_body rs)))%string),
            after_request w rq))
  /\ (forall (retries : nat) (api_base : string) (extra_wait_after_up_s : Q)
             (total_timeout_s : Z) (w : world),
         let rq := GET (api_base ++ "/manager/reboot")%string in
         let w_k := after_retries retries rq (3 # 2) w in
         (retries < 8)%nat ->
         answers_unaccepted retries rq (3 # 2) w ->
         reboot_accepted_code (status_code (respond w_k rq)) ->
         reboot_comfy_cycle api_base extra_wait_after_up_s total_timeout_s w
         = reboot_phases api_base extra_wait_after_up_s total_timeout_s
             (after_request w_k rq))
  /\ (forall (rq : request) (retries : nat) (backoff : Q) (w : world),
         exists evs : list event,
           trace (after_retries retries rq backoff w) = trace w ++ evs
           /\ List.length (filter (asked (request_url rq)) evs) = retries
           /\ List.length (filter is_sleep evs) = retries
           /\ List.length evs = (2 * retries)%nat).
Proof.
  split; [| split; [| split; [| split; [| split; [| split]]]]].
  - intros api_base extra total w rq Hacc.
    apply reboot_accepted_code_dec in Hacc.
    unfold reboot_comfy_cycle, bind at 1.
    rewrite reboot_request_loop_step. fold rq.
    destruct (Z.eqb (status_code (respond w rq)) 200) eqn:H200.
    + reflexivity.
    + cbn [orb] in Hacc. rewrite Hacc. reflexivity.
  - intros remaining api_base backoff last_err w rq rs Hrej.
    rewrite reboot_accepted_code_dec in Hrej.
    apply not_true_is_false, orb_false_iff in Hrej.
    destruct Hrej as [H200 Hproxy].
    rewrite reboot_request_loop_step. fold rq. fold rs.
    now rewrite H200, Hproxy.
  - intros api_base extra total w rq Hnever.
    destruct (reboot_request_loop_exhausts api_base 8 (3 # 2)%Q None w Hnever)
      as (w' & evs & last_err' & Hrun & _ & Hsome & Htr & Hreqs & Hsleeps & Hlen).
    destruct last_err' as [e|]; [| exfalso; apply Hsome; [discriminate | reflexivity]].
    exists w', evs, e.
    split; [| now repeat split].
    unfold reboot_comfy_cycle, bind at 1. rewrite Hrun. reflexivity.
  - intros rq n backoff w Hall. now apply never_accepted_answers.
  - intros remaining api_base backoff last_err w rq rs Hacc.
    now apply reboot_request_loop_accepts.
  - intros retries api_base extra total w rq w_k Hlt Hrej Hacc.
    destruct (reboot_request_loop_retries api_base retries (7 - retries)
                (3 # 2)%Q None w Hrej Hacc) as (last_err' & Hrun).
    replace (retries + S (7 - retries))%nat with 8%nat in Hrun by lia.
    unfold reboot_comfy_cycle, bind at 1. rewrite Hrun. reflexivity.
  - intros rq retries backoff w. apply after_retries_trace.
Qed.

(** ** What the install operations do after an accepted enqueue *)

Lemma get_models_catalog_from_clock (api_base : string) (paths : list string) :
  forall w : world,
    (now w <= now (snd (get_models_catalog_from api_base paths w)))%Q.
Proof.
  induction paths as [|path rest IH]; intros w.
  - cbn [get_models_catalog_from raise snd]. lra.
  - cbn [get_models_catalog_from]. unfold bind at 1, get at 1, send at 1.
    set (w1 := after_request w (GET (api_base ++ path)%string)).
    pose proof (now_after_request w (GET (api_base ++ path)%string)) as H1.
    fold w1 in H1. specialize (IH w1).
    destruct (negb (Z.eqb (status_code (respond w (GET (api_base ++ path)%string))) 200)).
    + lra.
    + destruct (json_loads (resp_body (respond w (GET (api_base ++ path)%string))))
        as [data|]; [| unfold raise; cbn [snd]; lra].
      destruct data as [| | | | |l|d]; try lra;
        [unfold ret; cbn [snd]; lra|].
      destruct (dict_lookup "models" d); [unfold ret; cbn [snd]; lra | lra].
Qed.

Lemma catalog_says_installed_returns (api_base filename : string) (w : world) :
  exists (found : bool) (w1 : world),
    catalog_says_installed api_base filename w = (Return found, w1)
    /\ (now w <= now w1)%Q.
Proof.
  unfold catalog_says_installed, try_except, bind, get_models_catalog.
  pose proof (get_models_catalog_from_clock api_base
    ["/externalmodel/getlist?mode=cache&skip_update=true";
     "/model/getlist?mode=cache&skip_update=true"] w) as Hclock.
  destruct (get_models_catalog_from api_base _ w) as [[all_models | e] w1].
  - cbn [snd] in Hclock.
    destruct all_models; cbn [ret]; eexists _, _; split; try reflexivity;
      exact Hclock.
  - cbn [snd] in Hclock. cbn [ret]. now exists false, w1.
Qed.

Lemma wait_model_installed_loop_spec (api_base filename : string)
    (deadline poll_s : Q) (polls : nat) :
  (0 < poll_s)%Q ->
  forall w : world,
    (deadline - now w <= inject_Z (Z.of_nat polls) * poll_s)%Q ->
    exists (b : bool) (w' : world),
      wait_model_installed_loop polls api_base filename deadline poll_s w
      = (Return b, w')
      /\ (b = true ->
          exists w_p : world,
            (now w <= now w_p)%Q /\ (now w_p < deadline)%Q
            /\ catalog_says_installed api_base filename w_p = (Return true, w'))
      /\ (b = false -> (deadline <= now w')%Q).
Proof.
  intros Hpoll.
  induction polls as [|polls IH]; intros w Hfuel.
  - exists false, w. cbn [wait_model_installed_loop ret].
    split; [reflexivity|]. split; [discriminate|].
    intros _. change (inject_Z (Z.of_nat 0)) with 0%Q in Hfuel. lra.
  - cbn [wait_model_installed_loop]. unfold bind at 1, time_time at 1.
    destruct (Qlt_le_dec (now w) deadline) as [Hlt | Hge].
    + unfold bind at 1.
      destruct (catalog_says_installed_returns api_base filename w)
        as (found & w1 & Hpolled & Hclock).
      rewrite Hpolled. destruct found.
      * exists true, w1. cbn [ret]. split; [reflexivity|].
        split; [| discriminate].
        intros _. exists w. repeat split; [lra | exact Hlt | exact Hpolled].
      * unfold bind at 1, sleep at 1.
        destruct (IH (after_sleep w1 poll_s)) as (b & w' & Hrun & Htrue & Hfalse).
        { rewrite now_after_sleep. rewrite inject_nat_succ in Hfuel. nra. }
        exists b, w'. split; [exact Hrun|]. split; [| exact Hfalse].
        intros Hb. destruct (Htrue Hb) as (w_p & Hle & Hbefore & Hp).
        exists w_p. rewrite now_after_sleep in Hle.
        repeat split; [lra | exact Hbefore | exact Hp].
    + exists false, w. cbn [ret]. split; [reflexivity|].
      split; [discriminate | intros _; exact Hge].
Qed.

Lemma wait_model_installed_loop_S (api_base filename : string)
    (deadline poll_s : Q) (polls : nat) (w : world) :
  wait_model_installed_loop (S polls) api_base filename deadline poll_s w =
    if Qlt_le_dec (now w) deadline then
      match catalog_says_installed api_base filename w with
      | (Return true, w1) => (Return true, w1)
      | (Return false, w1) =>
          wait_model_installed_loop polls api_base filename deadline poll_s
            (after_sleep w1 poll_s)
      | (Raise e, w1) => (Raise e, w1)
      end
    else (Return false, w).
Proof.
  cbn [wait_model_installed_loop]. unfold bind at 1, time_time at 1.
  destruct (Qlt_le_dec (now w) deadline); [| reflexivity].
  unfold bind at 1.
  destruct (catalog_says_installed api_base filename w) as [[[|] | e] w1];
    reflexivity.
Qed.

Lemma wait_model_installed_loop_more_polls (api_base filename : string)
    (deadline poll_s : Q) (polls : nat) :
  (0 < poll_s)%Q ->
  forall (extra : nat) (w : world),
    (deadline - now w <= inject_Z (Z.of_nat polls) * poll_s)%Q ->
    wait_model_installed_loop (polls + extra) api_base filename deadline poll_s w
    = wait_model_installed_loop polls api_base filename deadline poll_s w.
Proof.
  intros Hpoll.
  induction polls as [|polls IH]; intros extra w Hfuel.
  - change (inject_Z (Z.of_nat 0)) with 0%Q in Hfuel.
    destruct extra as [|extra]; [reflexivity|].
    cbn [Nat.add]. rewrite wait_model_installed_loop_S.
    destruct (Qlt_le_dec (now w) deadline); [lra | reflexivity].
  - cbn [Nat.add]. rewrite !wait_model_installed_loop_S.
    destruct (Qlt_le_dec (now w) deadline) as [Hlt | Hge]; [| reflexivity].
    destruct (catalog_says_installed_returns api_base filename w)
      as (found & w1 & Hpolled & Hclock).
    rewrite Hpolled. destruct found; [reflexivity|].
    apply IH. rewrite now_after_sleep.
    rewrite inject_nat_succ in Hfuel. nra.
Qed.

Lemma model_enqueue_loop_step (remaining : nat) (api_base : string)
    (payload : payload) (filename : string) (backoff : Q) (w : world) :
  let rq := POST (api_base ++ "/manager/queue/install_model")%string payload
                 "text/plain;charset=UTF-8" in
  let rs := respond w rq in
  model_enqueue_loop (S remaining) api_base payload filename backoff w =
    if Z.eqb (status_code rs) 200 then
      (queue_start api_base ;; wait_model_installed api_base filename 600 (3 # 2))
        (after_request w rq)
    else if is_transient (status_code rs) then
      model_enqueue_loop remaining api_base payload filename
                         (next_backoff backoff)
                         (after_sleep (after_request w rq) backoff)
    else
      (Raise (RuntimeError ("[models] enqueue failed "
                            ++ string_of_Z (status_code rs) ++ ": "
                            ++ text (resp_body rs))%string),
       after_request w rq).
Proof.
  intros rq rs. cbn [model_enqueue_loop].
  unfold bind at 1, post at 1, send at 1. fold rq. fold rs.
  destruct (Z.eqb (status_code rs) 200); [reflexivity|].
  destruct (is_transient (status_code rs)); reflexivity.
Qed.

Lemma try_candidates_step (api_base endpoint : string) (payload : jval)
    (rest : list jval) (w : world) :
  let rq := POST endpoint (JsonPayload payload) "application/json" in
  try_candidates api_base endpoint (payload :: rest) w =
    if Z.eqb (status_code (respond w rq)) 200 then
      (queue_start api_base ;;
       ok <- wait_queue_idle api_base 900 (3 # 2) ;;
       ret (Some ok)) (after_request w rq)
    else try_candidates api_base endpoint rest (after_request w rq).
Proof.
  intros rq. cbn [try_candidates].
  unfold bind at 1, jpost at 1, post at 1, send at 1. fold rq.
  destruct (Z.eqb (status_code (respond w rq)) 200); reflexivity.
Qed.

Lemma try_candidates_spec (api_base endpoint : string) (candidates : list jval) :
  forall w : world,
    (exists (w' : world) (refused : list event),
        try_candidates api_base endpoint candidates w = (Return None, w')
        /\ trace w' = trace w ++ refused
        /\ Forall refused_post refused
        /\ List.length refused = List.length candidates)
    \/ (exists (refused : list event) (w_k : world) (payload : jval),
           In payload candidates
           /\ trace w_k = trace w ++ refused
           /\ Forall refused_post refused
           /\ status_code (respond w_k (POST endpoint (JsonPayload payload)
                                             "application/json")) = 200
           /\ try_candidates api_base endpoint candidates w
              = (ok <- wait_queue_idle api_base 900 (3 # 2) ;; ret (Some ok))
                  (after_request
                     (after_request w_k (POST endpoint (JsonPayload payload)
                                              "application/json"))
                     (GET (api_base ++ "/manager/queue/start")%string))).
Proof.
  induction candidates as [|payload rest IH]; intros w.
  - left. exists w, []. cbn [try_candidates ret List.length].
    repeat split; [now rewrite app_nil_r | constructor].
  - rewrite try_candidates_step.
    set (rq := POST endpoint (JsonPayload payload) "application/json").
    destruct (Z.eqb (status_code (respond w rq)) 200) eqn:Hcode.
    + right. exists [], w, payload.
      split; [now left|]. split; [now rewrite app_nil_r|].
      split; [constructor|]. split; [now apply Z.eqb_eq|].
      fold rq. unfold bind at 1, queue_start at 1, bind at 1, get at 1, send at 1.
      reflexivity.
    + apply Z.eqb_neq in Hcode.
      assert (Hev : refused_post (Requested (now w) rq (respond w rq)))
        by exact Hcode.
      destruct (IH (after_request w rq))
        as [(w' & refused & Hrun & Htr & Hall & Hlen)
           | (refused & w_k & p & Hin & Htr & Hall & Hacc & Hrun)].
      * left. exists w', (Requested (now w) rq (respond w rq) :: refused).
        split; [exact Hrun|]. split.
        { rewrite Htr. cbn [after_request advance trace].
          now rewrite <- app_assoc. }
        split; [now constructor | cbn [List.length]; now rewrite Hlen].
      * right. exists (Requested (now w) rq (respond w rq) :: refused), w_k, p.
        split; [now right|]. split.
        { rewrite Htr. cbn [after_request advance trace].
          now rewrite <- app_assoc. }
        split; [now constructor|]. split; [exact Hacc | exact Hrun].
Qed.

Lemma try_install_url_paths_spec (api_base : string) (candidates : list jval)
    (paths : list string) :
  forall w : world,
    (exists (w' : world) (refused : list event),
        try_install_url_paths api_base paths candidates w = (Return false, w')
        /\ trace w' = trace w ++ refused
        /\ Forall refused_post refused
        /\ List.length refused
           = (List.length paths * List.length candidates)%nat)
    \/ (exists (refused : list event) (w_k : world) (path : string)
               (payload : jval),
           In path paths /\ In payload candidates
           /\ trace w_k = trace w ++ refused
           /\ Forall refused_post refused
           /\ status_code (respond w_k (POST (api_base ++ path)%string
                                             (JsonPayload payload)
                                             "application/json")) = 200
           /\ try_install_url_paths api_base paths candidates w
              = wait_queue_idle api_base 900 (3 # 2)
                  (after_request
                     (after_request w_k (POST (api_base ++ path)%string
                                              (JsonPayload payload)
                                              "application/json"))
                     (GET (api_base ++ "/manager/queue/start")%string))).
Proof.
  induction paths as [|path rest IH]; intros w.
  - left. exists w, []. cbn [try_install_url_paths ret List.length Nat.mul].
    repeat split; [now rewrite app_nil_r | constructor].
  - destruct (try_candidates_spec api_base (api_base ++ path)%string candidates w)
      as [(w1 & refused1 & Hrun1 & Htr1 & Hall1 & Hlen1)
         | (refused & w_k & p & Hin & Htr & Hall & Hacc & Hrun)].
    + assert (Hnext : try_install_url_paths api_base (path :: rest) candidates w
                      = try_install_url_paths api_base rest candidates w1).
      { cbn [try_install_url_paths]. unfold bind at 1. now rewrite Hrun1. }
      rewrite Hnext.
      destruct (IH w1)
        as [(w' & refused2 & Hrun2 & Htr2 & Hall2 & Hlen2)
           | (refused2 & w_k & path' & p & Hinp & Hin & Htr2 & Hall2 & Hacc & Hrun2)].
      * left. exists w', (refused1 ++ refused2).
        split; [exact Hrun2|]. split; [now rewrite Htr2, Htr1, app_assoc|].
        split; [apply Forall_app; now split|].
        rewrite length_app, Hlen1, Hlen2. cbn [List.length Nat.mul]. lia.
      * right. exists (refused1 ++ refused2), w_k, path', p.
        split; [now right|]. split; [exact Hin|].
        split; [now rewrite Htr2, Htr1, app_assoc|].
        split; [apply Forall_app; now split|]. split; [exact Hacc | exact Hrun2].
    + right. exists refused, w_k, path, p.
      split; [now left|]. split; [exact Hin|]. split; [exact Htr|].
      split; [exact Hall|]. split; [exact Hacc|].
      cbn [try_install_url_paths]. unfold bind at 1.
      rewrite Hrun. unfold bind at 1.
      destruct (wait_queue_idle_spec api_base 900 (3 # 2)
                  (after_request
                     (after_request w_k (POST (api_base ++ path)%string
                                              (JsonPayload p) "application/json"))
                     (GET (api_base ++ "/manager/queue/start")%string)))
        as (b & w' & evs & Hq & _); [reflexivity|].
      rewrite Hq. reflexivity.
Qed.

Lemma wait_model_installed_loop_runs (api_base filename : string)
    (deadline poll_s : Q) (polls : nat) :
  (0 < poll_s)%Q ->
  forall w : world,
    (deadline - now w <= inject_Z (Z.of_nat polls) * poll_s)%Q ->
    exists (b : bool) (w' : world),
      wait_model_installed_loop polls api_base filename deadline poll_s w
      = (Return b, w')
      /\ catalog_polls api_base filename deadline poll_s w b w'.
Proof.
  intros Hpoll.
  induction polls as [|polls IH]; intros w Hfuel.
  - change (inject_Z (Z.of_nat 0)) with 0%Q in Hfuel.
    exists false, w. cbn [wait_model_installed_loop ret].
    split; [reflexivity|]. apply catalog_polls_timeout. lra.
  - rewrite wait_model_installed_loop_S.
    destruct (Qlt_le_dec (now w) deadline) as [Hlt | Hge].
    + destruct (catalog_says_installed_returns api_base filename w)
        as (found & w1 & Hpolled & Hclock).
      rewrite Hpolled. destruct found.
      * exists true, w1. split; [reflexivity|].
        now apply catalog_polls_found.
      * destruct (IH (after_sleep w1 poll_s)) as (b & w' & Hrun & Hpolls).
        { rewrite now_after_sleep. rewrite inject_nat_succ in Hfuel. nra. }
        exists b, w'. split; [exact Hrun|].
        now apply catalog_polls_missing with (w1 := w1).
    + exists false, w. split; [reflexivity|]. now apply catalog_polls_timeout.
Qed.

Lemma catalog_says_installed_cases (api_base filename : string) (w : world) :
  (forall (l : list jval) (w1 : world),
      get_models_catalog api_base w = (Return (JList l), w1) ->
      catalog_says_installed api_base filename w
      = (Return (reported_installed filename l), w1))
  /\ (forall (r : result jval) (w1 : world),
         get_models_catalog api_base w = (r, w1) ->
         (forall l : list jval, r <> Return (JList l)) ->
         catalog_says_installed api_base filename w = (Return false, w1)).
Proof.
  unfold catalog_says_installed, try_except, bind. split.
  - intros l w1 Hget. rewrite Hget. reflexivity.
  - intros r w1 Hget Hno. rewrite Hget.
    destruct r as [all_models | e]; [| reflexivity].
    destruct all_models; try reflexivity.
    exfalso. now apply (Hno l).
Qed.

(** C5 (amended). After an accepted enqueue (200) the node install and the
    manager-URL install of a non-whitelisted model send the queue-start
    request and then poll the queue status, for 180 s and 900 s; the
    manager-URL install does so at the first endpoint and payload shape that
    is accepted, whichever it is, and returns [False] when none is.  That
    wait never raises: while the deadline has not passed it requests the
    queue status, returns [True] on an idle answer, and after any other
    sleeps 1.5 s and asks again; it returns [True] exactly when a poll begun
    before the deadline was answered idle, and [False] only once the
    deadline has passed.  The whitelisted-model install sends the
    queue-start request and then polls the model catalog for 600 s instead:
    while the deadline has not passed it fetches the catalog, returns [True]
    when the file is reported installed there, and otherwise sleeps 1.5 s
    and fetches again; it returns [False] only once the deadline has
    passed. *)
Theorem install_after_accepted_enqueue :
  (forall (remaining : nat) (api_base : string) (payload : payload)
          (backoff : Q) (w : world),
      let rq := POST (api_base ++ "/manager/queue/install")%string payload
                     "text/plain;charset=UTF-8" in
      status_code (respond w rq) = 200 ->
      node_enqueue_loop (S remaining) api_base payload backoff w
      = wait_queue_idle api_base 180 (3 # 2)
          (after_request (after_request w rq)
                         (GET (api_base ++ "/manager/queue/start")%string)))
  /\ (forall (api_base path : string) (payload : jval) (rest : list jval)
             (paths : list string) (w : world),
         let rq := POST (api_base ++ path)%string (JsonPayload payload)
                        "application/json" in
         status_code (respond w rq) = 200 ->
         try_install_url_paths api_base (path :: paths) (payload :: rest) w
         = wait_queue_idle api_base 900 (3 # 2)
             (after_request (after_request w rq)
                            (GET (api_base ++ "/manager/queue/start")%string)))
  /\ (forall (api_base : string) (timeout_s : Q) (w : world),
         exists (b : bool) (w' : world) (evs : list event),
           wait_queue_idle api_base timeout_s (3 # 2) w = (Return b, w')
           /\ queue_polls api_base (now w + timeout_s) (3 # 2) w b w'
           /\ trace w' = trace w ++ evs
           /\ Forall (polled_before api_base (now w + timeout_s)) evs
           /\ (b = true <-> existsb (observed_idle api_base) evs = true)
           /\ (b = false -> (now w + timeout_s <= now w')%Q))
  /\ (forall (remaining : nat) (api_base : string) (payload : payload)
             (filename : string) (backoff : Q) (w : world),
         let rq := POST (api_base ++ "/manager/queue/install_model")%string
                        payload "text/plain;charset=UTF-8" in
         status_code (respond w rq) = 200 ->
         model_enqueue_loop (S remaining) api_base payload filename backoff w
         = wait_model_installed api_base filename 600 (3 # 2)
             (after_request (after_request w rq)
                            (GET (api_base ++ "/manager/queue/start")%string)))
  /\ (forall (api_base filename : string) (timeout_s : Q) (w : world),
         exists (b : bool) (w' : world),
           wait_model_installed api_base filename timeout_s (3 # 2) w
           = (Return b, w')
           /\ catalog_polls api_base filename (now w + timeout_s) (3 # 2) w b w'
           /\ (b = true ->
               exists w_p : world,
                 (now w <= now w_p)%Q /\ (now w_p < now w + timeout_s)%Q
                 /\ catalog_says_installed api_base filename w_p
                    = (Return true, w'))
           /\ (b = false -> (now w + timeout_s <= now w')%Q))
  /\ (forall (api_base : string) (paths : list string) (candidates : list jval)
             (w : world),
         (exists (w' : world) (refused : list event),
             try_install_url_paths api_base paths candidates w
             = (Return false, w')
             /\ trace w' = trace w ++ refused
             /\ Forall refused_post refused
             /\ List.length refused
                = (List.length paths * List.length candidates)%nat)
         \/ (exists (refused : list event) (w_k : world) (path : string)
                    (payload : jval),
                In path paths /\ In payload candidates
                /\ trace w_k = trace w ++ refused
                /\ Forall refused_post refused
                /\ status_code (respond w_k (POST (api_base ++ path)%string
                                                  (JsonPayload payload)
                                                  "application/json")) = 200
                /\ try_install_url_paths api_base paths candidates w
                   = wait_queue_idle api_base 900 (3 # 2)
                       (after_request
                          (after_request w_k (POST (api_base ++ path)%string
                                                   (JsonPayload payload)
                                                   "application/json"))
                          (GET (api_base ++ "/manager/queue/start")%string))))
  /\ (forall (api_base endpoint : string) (payload : jval) (rest : list jval)
             (w : world),
         let rq := POST endpoint (JsonPayload payload) "application/json" in
         status_code (respond w rq) <> 200 ->
         try_candidates api_base endpoint (payload :: rest) w
         = try_candidates api_base endpoint rest (after_request w rq))
  /\ (forall (api_base path : string) (paths : list string)
             (candidates : list jval) (w w1 : world),
         try_candidates api_base (api_base ++ path)%string candidates w
         = (Return None, w1) ->
         try_install_url_paths api_base (path :: paths) candidates w
         = try_install_url_paths api_base paths candidates w1)
  /\ (forall (api_base filename : string) (w : world),
         (forall (l : list jval) (w1 : world),
             get_models_catalog api_base w = (Return (JList l), w1) ->
             catalog_says_installed api_base filename w
             = (Return (reported_installed filename l), w1))
         /\ (forall (r : result jval) (w1 : world),
                get_models_catalog api_base w = (r, w1) ->
                (forall l : list jval, r <> Return (JList l)) ->
                catalog_says_installed api_base filename w
                = (Return false, w1))).
Proof.
  split; [| split; [| split; [| split; [| split; [| split; [| split;
    [| split]]]]]]].
  - intros remaining api_base payload backoff w rq Hcode.
    rewrite node_enqueue_loop_step. fold rq. rewrite Hcode. reflexivity.
  - intros api_base path payload rest paths w rq Hcode.
    cbn [try_install_url_paths]. unfold bind at 1.
    rewrite try_candidates_step. fold rq. rewrite Hcode.
    cbn [Z.eqb Pos.eqb].
    unfold bind at 1, queue_start at 1, bind at 1, get at 1, send at 1.
    cbn [ret]. unfold bind at 1.
    destruct (wait_queue_idle_spec api_base 900 (3 # 2)
                (after_request (after_request w rq)
                   (GET (api_base ++ "/manager/queue/start")%string)))
      as (b & w' & evs & Hrun & _); [reflexivity|].
    rewrite Hrun. reflexivity.
  - intros api_base timeout_s w.
    destruct (wait_queue_idle_spec api_base timeout_s (3 # 2) w)
      as (b & w' & evs & Hrun & _ & Htr & Hall & Hb & _ & Hfalse);
      [reflexivity|].
    destruct (wait_queue_idle_runs api_base timeout_s (3 # 2) w)
      as (b2 & w2 & Hrun2 & Hpolls); [reflexivity|].
    rewrite Hrun in Hrun2. injection Hrun2 as <- <-.
    exists b, w', evs.
    split; [exact Hrun|]. split; [exact Hpolls|]. split; [exact Htr|].
    split; [exact Hall|]. split; [| exact Hfalse].
    split.
    + intros ->. now rewrite <- Hb.
    + intros H. now rewrite Hb.
  - intros remaining api_base payload filename backoff w rq Hcode.
    rewrite model_enqueue_loop_step. fold rq. rewrite Hcode. reflexivity.
  - intros api_base filename timeout_s w.
    unfold wait_model_installed, bind at 1, time_time at 1.
    assert (Hfuel : (now w + timeout_s - now w
                     <= inject_Z (Z.of_nat (enough_polls timeout_s (3 # 2)))
                        * (3 # 2))%Q).
    { pose proof (enough_polls_covers timeout_s (3 # 2) eq_refl). lra. }
    destruct (wait_model_installed_loop_spec api_base filename
                (now w + timeout_s) (3 # 2) (enough_polls timeout_s (3 # 2))
                eq_refl w Hfuel)
      as (b & w' & Hrun & Htrue & Hfalse).
    destruct (wait_model_installed_loop_runs api_base filename
                (now w + timeout_s) (3 # 2) (enough_polls timeout_s (3 # 2))
                eq_refl w Hfuel)
      as (b2 & w2 & Hrun2 & Hpolls).
    rewrite Hrun in Hrun2. injection Hrun2 as <- <-.
    exists b, w'.
    split; [exact Hrun|]. split; [exact Hpolls|]. split; [exact Htrue | exact Hfalse].
  - intros api_base paths candidates w.
    apply try_install_url_paths_spec.
  - intros api_base endpoint payload rest w rq Hcode.
    rewrite try_candidates_step. fold rq.
    apply Z.eqb_neq in Hcode. now rewrite Hcode.
  - intros api_base path paths candidates w w1 Hrun.
    cbn [try_install_url_paths]. unfold bind at 1. now rewrite Hrun.
  - intros api_base filename w. apply catalog_says_installed_cases.
Qed.

(** ** Non-whitelisted models: when the downloader fallback runs *)

Lemma via_manager_well_formed (api_base : string) (spec : dict)
    (url filename subfolder sha256 : string) (w : world) :
  get_default spec "url" (JStr "") = JStr url ->
  get_default spec "filename" (JStr "") = JStr filename ->
  get_default spec "subfolder" (JStr "") = JStr subfolder ->
  get_default spec "sha256" (JStr "") = JStr sha256 ->
  strip url <> "" -> strip filename <> "" -> strip subfolder <> "" ->
  install_nonwhitelisted_model_via_manager api_base spec w
  = try_install_url_paths api_base _INSTALL_URL_PATHS
      (manager_candidates (strip url) (strip filename) (strip subfolder)
                          (strip sha256))
      (after_request w (GET (api_base ++ "/manager/queue/reset")%string)).
Proof.
  intros Hu Hf Hs Hh Hu0 Hf0 Hs0.
  unfold install_nonwhitelisted_model_via_manager, get_strip.
  rewrite Hu, Hf, Hs, Hh.
  apply String.eqb_neq in Hu0, Hf0, Hs0.
  unfold bind at 1, ret at 1. unfold bind at 1, ret at 1.
  unfold bind at 1, ret at 1. unfold bind at 1, ret at 1.
  rewrite Hu0, Hf0, Hs0. cbn [negb andb ensure].
  unfold bind at 1, ret at 1.
  unfold bind at 1, queue_reset at 1, bind at 1, get at 1, send at 1.
  reflexivity.
Qed.

(** C4 (amended). For a spec with non-empty [url], [filename] and
    [subfolder], [install_nonwhitelisted_model] runs the downloader workflow
    in exactly two cases: every payload shape was refused (non-200) on every
    endpoint, eight POSTs in all; or the first accepted combination was
    followed by a queue wait that saw no idle answer before its 900 s
    deadline.  When a combination is accepted and the queue is seen idle in
    time, it returns [True] and nothing more is done. *)
Theorem install_nonwhitelisted_model_fallback (api_base root_base : string)
    (spec : dict) (url filename subfolder sha256 : string) (w : world) :
  get_default spec "url" (JStr "") = JStr url ->
  get_default spec "filename" (JStr "") = JStr filename ->
  get_default spec "subfolder" (JStr "") = JStr subfolder ->
  get_default spec "sha256" (JStr "") = JStr sha256 ->
  strip url <> "" -> strip filename <> "" -> strip subfolder <> "" ->
  let w0 := after_request w (GET (api_base ++ "/manager/queue/reset")%string) in
  (exists (w1 : world) (refused : list event),
      trace w1 = trace w0 ++ refused
      /\ Forall refused_post refused
      /\ List.length refused = 8%nat
      /\ install_nonwhitelisted_model_via_manager api_base spec w
         = (Return false, w1)
      /\ install_nonwhitelisted_model api_base root_base spec w
         = run_downloader_workflow api_base root_base spec w1)
  \/ (exists (refused : list event) (w_k : world) (path : string)
             (payload : jval) (b : bool) (w1 : world) (evs : list event),
         In path _INSTALL_URL_PATHS
         /\ In payload (manager_candidates (strip url) (strip filename)
                                           (strip subfolder) (strip sha256))
         /\ trace w_k = trace w0 ++ refused
         /\ Forall refused_post refused
         /\ status_code (respond w_k (POST (api_base ++ path)%string
                                           (JsonPayload payload)
                                           "application/json")) = 200
         /\ let w_q :=
              after_request
                (after_request w_k (POST (api_base ++ path)%string
                                         (JsonPayload payload)
                                         "application/json"))
                (GET (api_base ++ "/manager/queue/start")%string) in
            wait_queue_idle api_base 900 (3 # 2) w_q = (Return b, w1)
            /\ trace w1 = trace w_q ++ evs
            /\ install_nonwhitelisted_model_via_manager api_base spec w
               = (Return b, w1)
            /\ (b = true <-> existsb (observed_idle api_base) evs = true)
            /\ (b = true ->
                install_nonwhitelisted_model api_base root_base spec w
                = (Return true, w1))
            /\ (b = false ->
                (now w_q + 900 <= now w1)%Q
                /\ install_nonwhitelisted_model api_base root_base spec w
                   = run_downloader_workflow api_base root_base spec w1)).
Proof.
  intros Hu Hf Hs Hh Hu0 Hf0 Hs0 w0.
  pose proof (via_manager_well_formed api_base spec url filename subfolder
                sha256 w Hu Hf Hs Hh Hu0 Hf0 Hs0) as Hvia.
  fold w0 in Hvia.
  destruct (try_install_url_paths_spec api_base
              (manager_candidates (strip url) (strip filename)
                                  (strip subfolder) (strip sha256))
              _INSTALL_URL_PATHS w0)
    as [(w1 & refused & Hrun & Htr & Hall & Hlen)
       | (refused & w_k & path & p & Hinp & Hin & Htr & Hall & Hacc & Hrun)].
  - left. exists w1, refused. rewrite Hrun in Hvia.
    repeat split; try assumption.
    unfold install_nonwhitelisted_model, bind at 1. now rewrite Hvia.
  - right.
    set (w_q := after_request
                  (after_request w_k (POST (api_base ++ path)%string
                                           (JsonPayload p) "application/json"))
                  (GET (api_base ++ "/manager/queue/start")%string)) in *.
    destruct (wait_queue_idle_spec api_base 900 (3 # 2) w_q)
      as (b & w1 & evs & Hq & _ & Htrq & _ & Hb & _ & Hfalse); [reflexivity|].
    rewrite Hrun, Hq in Hvia.
    exists refused, w_k, path, p, b, w1, evs.
    do 5 (split; [assumption|]).
    cbv zeta. fold w_q.
    split; [exact Hq|]. split; [exact Htrq|]. split; [exact Hvia|].
    split; [| split].
    + split; [intros ->; now rewrite <- Hb | intros H; now rewrite Hb].
    + intros ->. unfold install_nonwhitelisted_model, bind at 1.
      now rewrite Hvia.
    + intros ->. split; [now apply Hfalse|].
      unfold install_nonwhitelisted_model, bind at 1. now rewrite Hvia.
Qed.

(** ** The other loops on the clock *)

Lemma reboot_phase_a_loop_more_polls (api_base : string) (phaseA_deadline : Q)
    (polls : nat) :
  forall (extra : nat) (backoff : Q) (w : world),
    (12 # 10 <= backoff)%Q ->
    (phaseA_deadline - now w <= inject_Z (Z.of_nat polls) * (12 # 10))%Q ->
    reboot_phase_a_loop (polls + extra) api_base phaseA_deadline backoff w
    = reboot_phase_a_loop polls api_base phaseA_deadline backoff w.
Proof.
  induction polls as [|polls IH]; intros extra backoff w Hback Hfuel.
  - change (inject_Z (Z.of_nat 0)) with 0%Q in Hfuel.
    destruct extra as [|extra]; [reflexivity|].
    cbn [Nat.add reboot_phase_a_loop]. unfold bind at 1, time_time at 1.
    destruct (Qlt_le_dec (now w) phaseA_deadline); [lra | reflexivity].
  - cbn [Nat.add reboot_phase_a_loop]. unfold bind, time_time, get, send, sleep.
    destruct (Qlt_le_dec (now w) phaseA_deadline) as [Hlt | Hge];
      [| reflexivity].
    set (rq := GET (api_base ++ "/queue")%string).
    destruct (negb (Z.eqb (status_code (respond w rq)) 200)); [reflexivity|].
    apply IH.
    + apply Q.min_glb; lra.
    + rewrite now_after_sleep. pose proof (now_after_request w rq).
      rewrite inject_nat_succ in Hfuel. nra.
Qed.

Lemma _history_fetch_returns (api_base prompt_id : string) (w : world) :
  exists (code : Z) (hist : option dict),
    _history_fetch api_base prompt_id w
    = (Return (code, hist),
       after_request w (GET (api_base ++ "/history/" ++ prompt_id)%string)).
Proof.
  unfold _history_fetch, bind, get, send.
  set (rs := respond w (GET (api_base ++ "/history/" ++ prompt_id)%string)).
  destruct (negb (Z.eqb (status_code rs) 200)); [now eexists _, _|].
  destruct (json_loads (resp_body rs)) as [[| | | | | |obj]|];
    try (now eexists _, _).
  destruct (dict_lookup prompt_id obj) as [[| | | | | |h]|];
    try (destruct (dict_has "status" obj || dict_has "outputs" obj));
    now eexists _, _.
Qed.

Lemma wait_workflow_complete_loop_more_polls (api_base prompt_id : string)
    (deadline poll_s : Q) (polls : nat) :
  (0 < poll_s)%Q ->
  forall (extra : nat) (w : world),
    (deadline - now w <= inject_Z (Z.of_nat polls) * poll_s)%Q ->
    wait_workflow_complete_loop (polls + extra) api_base prompt_id deadline
                                poll_s w
    = wait_workflow_complete_loop polls api_base prompt_id deadline poll_s w.
Proof.
  intros Hpoll.
  induction polls as [|polls IH]; intros extra w Hfuel.
  - change (inject_Z (Z.of_nat 0)) with 0%Q in Hfuel.
    destruct extra as [|extra]; [reflexivity|].
    cbn [Nat.add wait_workflow_complete_loop]. unfold bind at 1, time_time at 1.
    destruct (Qlt_le_dec (now w) deadline); [lra | reflexivity].
  - cbn [Nat.add wait_workflow_complete_loop].
    unfold bind at 1, time_time at 1.
    symmetry. unfold bind at 1, time_time at 1. symmetry.
    destruct (Qlt_le_dec (now w) deadline) as [Hlt | Hge]; [| reflexivity].
    destruct (_history_fetch_returns api_base prompt_id w)
      as (code & hist & Hfetch).
    set (w1 := after_request w (GET (api_base ++ "/history/" ++ prompt_id)%string))
      in *.
    assert (Hnext :
      wait_workflow_complete_loop (polls + extra) api_base prompt_id deadline
                                  poll_s (after_sleep w1 poll_s)
      = wait_workflow_complete_loop polls api_base prompt_id deadline poll_s
                                    (after_sleep w1 poll_s)).
    { apply IH. rewrite now_after_sleep.
      pose proof (now_after_request w
                    (GET (api_base ++ "/history/" ++ prompt_id)%string)).
      fold w1 in H. rewrite inject_nat_succ in Hfuel. nra. }
    unfold bind at 1. symmetry. unfold bind at 1. symmetry.
    rewrite Hfetch.
    destruct (if Z.eqb code 200 then hist else None) as [h|].
    + destruct (_is_workflow_done h) as [[|] [[|]|]];
        try reflexivity; unfold bind, sleep; exact Hnext.
    + unfold bind, sleep. exact Hnext.
Qed.

(** ** The pickers *)

Section RunningMaximum.

Variable score_of : dict -> Z.

Lemma fold_keep_best_spec (catalog : list dict) (acc : option dict * Z) :
  let r := fold_left (keep_best score_of) catalog acc in
  snd acc <= snd r
  /\ (forall m, In m catalog -> score_of m <= snd r)
  /\ (r = acc
      \/ exists m, fst r = Some m /\ In m catalog
                   /\ score_of m = snd r /\ snd acc < snd r).
Proof.
  revert acc.
  induction catalog as [|m0 rest IH]; intros acc; cbn [fold_left].
  - repeat split; [lia | intros m [] | now left].
  - specialize (IH (keep_best score_of acc m0)).
    cbv zeta in IH |- *.
    destruct IH as (Hmono & Hub & Hsel).
    assert (Hstep : snd acc <= snd (keep_best score_of acc m0)
                    /\ score_of m0 <= snd (keep_best score_of acc m0)).
    { unfold keep_best.
      destruct (score_of m0 >? snd acc) eqn:Hgt; cbn [snd]; lia. }
    repeat split.
    + lia.
    + intros m [<- | Hin]; [lia | auto].
    + destruct Hsel as [Heq | (m & Hm & Hin & Hsc & Hlt)].
      * rewrite Heq. unfold keep_best.
        destruct (score_of m0 >? snd acc) eqn:Hgt; [right | now left].
        exists m0. cbn [fst snd]. repeat split; [now left | lia].
      * right. exists m. repeat split; [assumption | now right | assumption | lia].
Qed.

End RunningMaximum.

Lemma node_score_nonexact_le (q : string) (m : dict) :
  normalize (get_ m "id") <> q ->
  normalize (get_ m "title") <> q ->
  node_score q m <= 1050.
Proof.
  intros Hid Htitle. unfold node_score.
  apply String.eqb_neq in Hid, Htitle. rewrite Hid, Htitle. cbn [orb].
  repeat match goal with |- context [if ?b then _ else _] => destruct b end; lia.
Qed.

Lemma node_score_exact_ge (q : string) (m : dict) :
  normalize (get_ m "id") = q \/ normalize (get_ m "title") = q ->
  10000 <= node_score q m.
Proof.
  intros H. unfold node_score.
  assert (Hex : String.eqb (normalize (get_ m "id")) q
                || String.eqb (normalize (get_ m "title")) q = true).
  { apply orb_true_iff. destruct H as [H | H]; [left | right];
      now apply String.eqb_eq. }
  rewrite Hex. destruct (node_not_installed m); lia.
Qed.

(** C6. When some catalog entry has a normalized id or title equal to the
    normalized query, [pick_node] returns an entry of the catalog that is
    itself such an exact match, with a score of at least 10000; every entry
    that is not an exact match scores at most 400+350+250+50 = 1050, so no
    set of substring matches can displace it. *)
Theorem pick_node_selects_exact_match (catalog : list dict) (query : string) :
  let q := normalize (JStr query) in
  (exists m, In m catalog
             /\ (normalize (get_ m "id") = q \/ normalize (get_ m "title") = q)) ->
  (exists m, fst (pick_node catalog query) = Some m
             /\ In m catalog
             /\ (normalize (get_ m "id") = q \/ normalize (get_ m "title") = q)
             /\ node_score q m = snd (pick_node catalog query)
             /\ 10000 <= snd (pick_node catalog query))
  /\ (forall m, In m catalog ->
                normalize (get_ m "id") <> q ->
                normalize (get_ m "title") <> q ->
                node_score q m <= 400 + 350 + 250 + 50
                /\ node_score q m < snd (pick_node catalog query)).
Proof.
  intros q (m0 & Hin0 & Hex0). unfold pick_node. fold q.
  pose proof (fold_keep_best_spec (node_score q) catalog (None, -1)) as Hspec.
  cbv zeta in Hspec. cbn [snd] in Hspec.
  set (r := fold_left (keep_best (node_score q)) catalog (None, -1)) in *.
  destruct Hspec as (_ & Hub & Hsel).
  pose proof (node_score_exact_ge q m0 Hex0) as Hge.
  pose proof (Hub m0 Hin0) as Hle.
  split.
  - destruct Hsel as [Heq | (m & Hm & Hin & Hsc & _)].
    + rewrite Heq in Hle. cbn [snd] in Hle. lia.
    + exists m. repeat split; try assumption; [| lia].
      destruct (string_dec (normalize (get_ m "id")) q) as [|Hid]; [now left|].
      destruct (string_dec (normalize (get_ m "title")) q) as [|Ht]; [now right|].
      pose proof (node_score_nonexact_le q m Hid Ht). lia.
  - intros m Hin Hid Ht.
    pose proof (node_score_nonexact_le q m Hid Ht). lia.
Qed.

Lemma model_score_ge_m1 (q : string) (m : dict) : -1 <= model_score q m.
Proof.
  unfold model_score.
  repeat match goal with |- context [if ?b then _ else _] => destruct b end; lia.
Qed.

(** C7. [pick_model] reports the maximum of the entries' scores (and -1 on
    an empty catalog); it returns no entry when that best score is below
    250, and an entry of the catalog achieving the best score when it is at
    least 250. *)
Theorem pick_model_acceptance_floor (catalog : list dict) (query : string) :
  let q := normalize (JStr query) in
  let r := pick_model catalog query in
  (forall m, In m catalog -> model_score q m <= snd r)
  /\ (snd r = -1 \/ exists m, In m catalog /\ model_score q m = snd r)
  /\ (snd r < 250 -> fst r = None)
  /\ (250 <= snd r ->
      exists m, fst r = Some m /\ In m catalog /\ model_score q m = snd r).
Proof.
  intros q r. subst r. unfold pick_model. fold q.
  pose proof (fold_keep_best_spec (model_score q) catalog (None, -1)) as Hspec.
  cbv zeta in Hspec. cbn [snd] in Hspec.
  destruct (fold_left (keep_best (model_score q)) catalog (None, -1))
    as [best best_score] eqn:Hfold.
  cbn [fst snd] in *.
  destruct Hspec as (_ & Hub & Hsel).
  repeat split.
  - exact Hub.
  - destruct Hsel as [Heq | (m & _ & Hin & Hsc & _)].
    + left. now inversion Heq.
    + right. now exists m.
  - intros Hlt. destruct (250 <=? best_score) eqn:Hfloor; [lia | reflexivity].
  - intros Hge. destruct (250 <=? best_score) eqn:Hfloor; [| lia].
    destruct Hsel as [Heq | (m & Hm & Hin & Hsc & _)].
    + inversion Heq. lia.
    + now exists m.
Qed.

(** C3 (amended). For a query whose normalized form contains a dot, when no
    entry's normalized filename equals or contains the normalized query and
    no entry's normalized name equals it, [pick_model] returns no entry and
    the score -1, whatever substring matches the name fields offer. *)
Theorem pick_model_dotted_query_disqualified
    (catalog : list dict) (query : string) :
  let q := normalize (JStr query) in
  str_in "." q = true ->
  (forall m, In m catalog ->
             normalize (get_ m "filename") <> q
             /\ find (normalize (get_ m "filename")) q < 0) ->
  (forall m, In m catalog -> normalize (get_ m "name") <> q) ->
  pick_model catalog query = (None, -1).
Proof.
  intros q Hdot Hfile Hname. unfold pick_model. fold q.
  pose proof (fold_keep_best_spec (model_score q) catalog (None, -1)) as Hspec.
  cbv zeta in Hspec. cbn [snd] in Hspec.
  destruct (fold_left (keep_best (model_score q)) catalog (None, -1))
    as [best best_score] eqn:Hfold.
  cbn [fst snd] in *.
  destruct Hspec as (Hlo & _ & Hsel).
  assert (Hall : forall m, In m catalog -> model_score q m = -1).
  { intros m Hin. destruct (Hfile m Hin) as [Hneq Hfind].
    specialize (Hname m Hin).
    unfold model_score.
    apply String.eqb_neq in Hneq, Hname. rewrite Hneq, Hname, Hdot.
    cbn [orb andb].
    destruct (0 <=? find (normalize (get_ m "filename")) q) eqn:Hc; [lia|].
    now rewrite andb_false_r. }
  destruct Hsel as [Heq | (m & _ & Hin & Hsc & Hlt)].
  - inversion Heq. reflexivity.
  - rewrite (Hall m Hin) in Hsc. lia.
Qed.

End Script.

(** ** Concrete runs *)

(** C3 (as stated) fails: the query [sd v1.5] contains a dot, no filename of
    the catalog equals or contains it, and yet [pick_model] returns the
    entry, whose name equals the query (score 1000). *)
Lemma pick_model_dotted_query_name_match :
  let q := normalize no_repr (JStr "sd v1.5") in
  str_in "." q = true
  /\ (forall m, In m sd15_catalog ->
                normalize no_repr (get_ m "filename") <> q
                /\ find (normalize no_repr (get_ m "filename")) q < 0)
  /\ pick_model no_repr sd15_catalog "sd v1.5"
     = (Some [("name", JStr "SD v1.5"); ("filename", JStr "v1-5-pruned.ckpt");
              ("installed", JStr "False")], 1000).
Proof.
  cbv zeta. split; [reflexivity|]. split; [|reflexivity].
  intros m [<- | []]. split; [discriminate | reflexivity].
Qed.

(** The dotted query [SD v1.5] occurs in the name of the only entry, which
    would score 350 for it, but in no filename: no match. *)
Lemma pick_model_dotted_query_disqualified_witness :
  let q := normalize no_repr (JStr "SD v1.5") in
  (str_in "." q = true
   /\ (forall m, In m sd15_variants_catalog ->
                 normalize no_repr (get_ m "filename") <> q
                 /\ find (normalize no_repr (get_ m "filename")) q < 0)
   /\ (forall m, In m sd15_variants_catalog ->
                 normalize no_repr (get_ m "name") <> q))
  /\ pick_model no_repr sd15_variants_catalog "SD v1.5" = (None, -1).
Proof.
  cbv zeta.
  assert (Hdot : str_in "." (normalize no_repr (JStr "SD v1.5")) = true)
    by reflexivity.
  assert (Hfile : forall m, In m sd15_variants_catalog ->
            normalize no_repr (get_ m "filename")
            <> normalize no_repr (JStr "SD v1.5")
            /\ find (normalize no_repr (get_ m "filename"))
                    (normalize no_repr (JStr "SD v1.5")) < 0).
  { intros m [<- | []]. split; [discriminate | reflexivity]. }
  assert (Hname : forall m, In m sd15_variants_catalog ->
            normalize no_repr (get_ m "name")
            <> normalize no_repr (JStr "SD v1.5")).
  { intros m [<- | []]. discriminate. }
  split; [split; [exact Hdot | split; [exact Hfile | exact Hname]]|].
  exact (pick_model_dotted_query_disqualified no_repr sd15_variants_catalog
           "SD v1.5" Hdot Hfile Hname).
Defined.

(** The second entry's title equals the query up to case and spacing; the
    first one only contains it. *)
Lemma pick_node_selects_exact_match_witness :
  let q := normalize no_repr (JStr "ComfyUI  Impact pack") in
  (exists m, In m impact_catalog
             /\ (normalize no_repr (get_ m "id") = q
                 \/ normalize no_repr (get_ m "title") = q))
  /\ exists m, fst (pick_node no_repr impact_catalog "ComfyUI  Impact pack")
               = Some m
               /\ In m impact_catalog
               /\ (normalize no_repr (get_ m "id") = q
                   \/ normalize no_repr (get_ m "title") = q)
               /\ node_score no_repr q m
                  = snd (pick_node no_repr impact_catalog "ComfyUI  Impact pack")
               /\ 10000 <= snd (pick_node no_repr impact_catalog
                                          "ComfyUI  Impact pack").
Proof.
  cbv zeta.
  assert (Hex : exists m, In m impact_catalog
            /\ (normalize no_repr (get_ m "id")
                = normalize no_repr (JStr "ComfyUI  Impact pack")
                \/ normalize no_repr (get_ m "title")
                   = normalize no_repr (JStr "ComfyUI  Impact pack"))).
  { exists (nth 1 impact_catalog []). split; [right; left; reflexivity|].
    right. reflexivity. }
  split; [exact Hex|].
  exact (proj1 (pick_node_selects_exact_match no_repr impact_catalog
                  "ComfyUI  Impact pack" Hex)).
Defined.

(** An idle answer ends the wait at the first poll; a count of 2 is not
    idle. *)
Lemma wait_queue_idle_idle_iff_witness :
  let w := fresh flaky_enqueue_service in
  let url := (sample_api ++ "/manager/queue/status")%string in
  ((0 < 180)%Q
   /\ status_code (respond w (GET url)) = 200
   /\ status_says_idle (resp_body (respond w (GET url))) = true)
  /\ wait_queue_idle sample_api 180 (3 # 2) w
     = (Return true, after_request w (GET url))
  /\ (status_says_idle (resp_body (queue_status_reply false 2 200)) = true
      <-> false = false /\ 2 = 0).
Proof.
  cbv zeta.
  assert (H180 : (0 < 180)%Q) by reflexivity.
  assert (Hcode : status_code (respond (fresh flaky_enqueue_service)
                    (GET (sample_api ++ "/manager/queue/status")%string)) = 200)
    by reflexivity.
  assert (Hidle : status_says_idle (resp_body (respond (fresh flaky_enqueue_service)
                    (GET (sample_api ++ "/manager/queue/status")%string))) = true)
    by reflexivity.
  split; [split; [exact H180 | split; [exact Hcode | exact Hidle]]|]. split.
  - exact (proj1 (proj1 wait_queue_idle_idle_iff sample_api 180%Q (3 # 2)%Q
                    (fresh flaky_enqueue_service) H180 Hcode) Hidle).
  - exact (proj1 (proj2 wait_queue_idle_idle_iff) _
             [("is_processing", JBool false); ("in_progress_count", JInt 2)]
             false 2 eq_refl eq_refl).
Defined.

(** The empty object is taken for an idle queue. *)
Lemma wait_queue_idle_missing_fields_idle_witness :
  let w := fresh bare_status_service in
  let url := (sample_api ++ "/manager/queue/status")%string in
  ((0 < 180)%Q
   /\ status_code (respond w (GET url)) = 200
   /\ json_loads (resp_body (respond w (GET url))) = Some (JDict []))
  /\ wait_queue_idle sample_api 180 (3 # 2) w
     = (Return true, after_request w (GET url)).
Proof.
  cbv zeta.
  assert (H180 : (0 < 180)%Q) by reflexivity.
  split; [split; [exact H180 | split; reflexivity]|].
  exact (proj2 wait_queue_idle_missing_fields_idle sample_api 180%Q (3 # 2)%Q
           (fresh bare_status_service) H180 eq_refl eq_refl).
Defined.

(** 503, 503, 200 and an idle queue: [True] at the third attempt; a service
    that always answers 500: [False] after six POSTs. *)
Lemma node_enqueue_retry_policy_witness :
  let entry := [("id", JStr "comfyui-impact-pack")] in
  let rq := POST (sample_api ++ "/manager/queue/install")%string
                 (JsonPayload (JDict entry)) "text/plain;charset=UTF-8" in
  let w0 := after_request (fresh flaky_enqueue_service)
              (GET (sample_api ++ "/manager/queue/reset")%string) in
  let w1 := after_sleep (after_request w0 rq) (3 # 2) in
  let w2 := after_sleep (after_request w1 rq) (51 # 20) in
  let w3 := after_request (after_request w2 rq)
              (GET (sample_api ++ "/manager/queue/start")%string) in
  let poll := GET (sample_api ++ "/manager/queue/status")%string in
  (status_code (respond w0 rq) = 503
   /\ status_code (respond w1 rq) = 503
   /\ status_code (respond w2 rq) = 200
   /\ status_code (respond w3 poll) = 200
   /\ status_says_idle (resp_body (respond w3 poll)) = true)
  /\ install_node_by_query_enqueue sample_api entry (fresh flaky_enqueue_service)
     = (Return true, after_request w3 poll)
  /\ (forall hist t, In (status_code (failing_service hist t rq)) transient_codes)
  /\ exists (w' : world) (evs : list event),
       install_node_by_query_enqueue sample_api entry (fresh failing_service)
       = (Return false, w')
       /\ trace w' = evs
       /\ List.length (filter (asked (request_url rq)) evs) = 6%nat
       /\ List.length (filter is_sleep evs) = 6%nat.
Proof.
  cbv zeta.
  split; [do 4 (split; [reflexivity|]); reflexivity|]. split.
  - exact (proj2 (proj1 (proj2 (proj2 node_enqueue_retry_policy)) sample_api
                    [("id", JStr "comfyui-impact-pack")]
                    (fresh flaky_enqueue_service) eq_refl eq_refl eq_refl)
                 eq_refl eq_refl).
  - assert (Hall : forall hist t,
              In (status_code
                    (failing_service hist t
                       (POST (sample_api ++ "/manager/queue/install")%string
                             (JsonPayload (JDict [("id", JStr "comfyui-impact-pack")]))
                             "text/plain;charset=UTF-8")))
                 transient_codes).
    { intros hist t. cbn. tauto. }
    split; [exact Hall|].
    exact (proj1 (proj2 (proj2 (proj2 node_enqueue_retry_policy))) sample_api
             [("id", JStr "comfyui-impact-pack")] (fresh failing_service)
             (proj2 (proj2 (proj2 (proj2 node_enqueue_retry_policy))) _ 6%nat
                    (3 # 2)%Q
                    (after_request (fresh failing_service)
                       (GET (sample_api ++ "/manager/queue/reset")%string))
                    Hall)).
Defined.

(** A 502 from the proxy is an accepted reboot; a service that always
    answers 500 is given up on after eight requests; one that answers 500
    seven times and then 200 has its reboot accepted at the eighth. *)
Lemma reboot_request_phase_witness :
  let rq := GET (sample_api ++ "/manager/reboot")%string in
  let w_7 := after_retries 7 rq (3 # 2) (fresh late_reboot_service) in
  (reboot_accepted_code (status_code (respond (fresh bad_gateway_service) rq))
   /\ (forall hist t, ~ reboot_accepted_code (status_code (failing_service hist t rq)))
   /\ (7 < 8)%nat
   /\ answers_unaccepted 7 rq (3 # 2) (fresh late_reboot_service)
   /\ reboot_accepted_code (status_code (respond w_7 rq)))
  /\ reboot_comfy_cycle sample_api 30 900 (fresh bad_gateway_service)
     = reboot_phases sample_api 30 900
         (after_request (fresh bad_gateway_service) rq)
  /\ (exists (w' : world) (evs : list event) (last_err : string),
         reboot_comfy_cycle sample_api 30 900 (fresh failing_service)
         = (Raise (RuntimeError ("[reboot] could not initiate reboot: "
                                 ++ last_err)%string), w')
         /\ trace w' = evs
         /\ List.length (filter (asked (request_url rq)) evs) = 8%nat
         /\ List.length (filter is_sleep evs) = 8%nat
         /\ List.length evs = 16%nat)
  /\ reboot_comfy_cycle sample_api 30 900 (fresh late_reboot_service)
     = reboot_phases sample_api 30 900 (after_request w_7 rq).
Proof.
  cbv zeta.
  assert (Hacc : reboot_accepted_code
                   (status_code (respond (fresh bad_gateway_service)
                      (GET (sample_api ++ "/manager/reboot")%string)))).
  { right. cbn. tauto. }
  assert (Hnever : forall hist t,
            ~ reboot_accepted_code
                (status_code (failing_service hist t
                   (GET (sample_api ++ "/manager/reboot")%string)))).
  { intros hist t [H | H]; [discriminate H|].
    cbn in H. intuition discriminate. }
  assert (Hlt : (7 < 8)%nat) by lia.
  assert (Hrej : answers_unaccepted 7
                   (GET (sample_api ++ "/manager/reboot")%string) (3 # 2)
                   (fresh late_reboot_service)).
  { cbn [answers_unaccepted].
    repeat split;
      (intros [H | H]; vm_compute in H;
       [discriminate H | intuition discriminate]). }
  assert (Hlate : reboot_accepted_code
                    (status_code
                       (respond
                          (after_retries 7
                             (GET (sample_api ++ "/manager/reboot")%string)
                             (3 # 2) (fresh late_reboot_service))
                          (GET (sample_api ++ "/manager/reboot")%string)))).
  { left. vm_compute. reflexivity. }
  split; [split; [exact Hacc | split; [exact Hnever | split; [exact Hlt | split;
          [exact Hrej | exact Hlate]]]]|].
  split; [| split].
  - exact (proj1 reboot_request_phase sample_api 30%Q 900
             (fresh bad_gateway_service) Hacc).
  - exact (proj1 (proj2 (proj2 reboot_request_phase)) sample_api 30%Q 900
             (fresh failing_service)
             (proj1 (proj2 (proj2 (proj2 reboot_request_phase))) _ 8%nat (3 # 2)%Q
                    (fresh failing_service) Hnever)).
  - exact (proj1 (proj2 (proj2 (proj2 (proj2 (proj2 reboot_request_phase)))))
             7%nat sample_api 30%Q 900 (fresh late_reboot_service)
             Hlt Hrej Hlate).
Defined.

(** An accepted node enqueue is followed by the queue-start request and the
    180 s wait for the queue; an accepted model enqueue by the queue-start
    request and the 600 s wait on the model catalog. *)
Lemma install_after_accepted_enqueue_witness :
  let payload := JsonPayload (JDict [("id", JStr "comfyui-impact-pack")]) in
  let rq := POST (sample_api ++ "/manager/queue/install")%string payload
                 "text/plain;charset=UTF-8" in
  let w := fresh bare_status_service in
  let payload_m := JsonPayload (JDict (lora_entry false)) in
  let rq_m := POST (sample_api ++ "/manager/queue/install_model")%string
                   payload_m "text/plain;charset=UTF-8" in
  let w_m := fresh model_service in
  (status_code (respond w rq) = 200 /\ status_code (respond w_m rq_m) = 200)
  /\ node_enqueue_loop 6 sample_api payload (3 # 2) w
     = wait_queue_idle sample_api 180 (3 # 2)
         (after_request (after_request w rq)
                        (GET (sample_api ++ "/manager/queue/start")%string))
  /\ model_enqueue_loop no_repr 6 sample_api payload_m
       "add_detail.safetensors" (3 # 2) w_m
     = wait_model_installed no_repr sample_api "add_detail.safetensors" 600
         (3 # 2)
         (after_request (after_request w_m rq_m)
                        (GET (sample_api ++ "/manager/queue/start")%string)).
Proof.
  cbv zeta. split; [split; reflexivity|]. split.
  - exact (proj1 (install_after_accepted_enqueue no_repr) 5%nat sample_api
             (JsonPayload (JDict [("id", JStr "comfyui-impact-pack")]))
             (3 # 2)%Q (fresh bare_status_service) eq_refl).
  - exact (proj1 (proj2 (proj2 (proj2 (install_after_accepted_enqueue no_repr))))
             5%nat sample_api (JsonPayload (JDict (lora_entry false)))
             "add_detail.safetensors" (3 # 2)%Q (fresh model_service) eq_refl).
Defined.

(** C5 (as stated) fails for the whitelisted-model install: the enqueue is
    accepted, the queue would report busy, and the install returns [True]
    from the model catalog without ever asking for the queue status. *)
Lemma install_model_never_polls_queue :
  let run := install_model_by_query no_repr sample_api "add_detail"
               (fresh model_service) in
  existsb (accepted_post (sample_api ++ "/manager/queue/install_model")%string)
          (trace (snd run)) = true
  /\ fst run = Return true
  /\ existsb (asked (sample_api ++ "/manager/queue/status")%string)
             (trace (snd run)) = false
  /\ (forall hist t,
         status_says_idle
           (resp_body (model_service hist t
              (GET (sample_api ++ "/manager/queue/status")%string))) = false).
Proof.
  cbv zeta. repeat split; vm_compute; reflexivity.
Qed.

(** C4 (as stated) fails: the first endpoint accepts the first payload shape
    with a 200, the queue does not drain within 900 s, and the downloader
    workflow is submitted all the same. *)
Lemma fallback_runs_after_accepted_enqueue :
  let run := install_nonwhitelisted_model no_repr sample_api sample_root
               chroma_spec (fresh slow_queue_service) in
  existsb (accepted_post (sample_api ++ "/externalmodel/install_url")%string)
          (trace (snd run)) = true
  /\ existsb (asked (sample_api ++ "/prompt")%string) (trace (snd run)) = true.
Proof.
  cbv zeta. split; vm_compute; reflexivity.
Qed.

(** On the slow queue the manager attempt is accepted at once and times
    out: the second case of the theorem. *)
Lemma install_nonwhitelisted_model_fallback_witness :
  let url := "https://huggingface.co/lodestones/Chroma1-HD/resolve/main/Chroma-HD.safetensors" in
  let filename := "Chroma-HD.safetensors" in
  let subfolder := "diffusion_models" in
  let sha256 := "" in
  let w := fresh slow_queue_service in
  let w0 := after_request w (GET (sample_api ++ "/manager/queue/reset")%string) in
  (get_default chroma_spec "url" (JStr "") = JStr url
   /\ get_default chroma_spec "filename" (JStr "") = JStr filename
   /\ get_default chroma_spec "subfolder" (JStr "") = JStr subfolder
   /\ get_default chroma_spec "sha256" (JStr "") = JStr sha256
   /\ strip url <> "" /\ strip filename <> "" /\ strip subfolder <> "")
  /\ ((exists (w1 : world) (refused : list event),
          trace w1 = trace w0 ++ refused
          /\ Forall refused_post refused
          /\ List.length refused = 8%nat
          /\ install_nonwhitelisted_model_via_manager no_repr sample_api
               chroma_spec w = (Return false, w1)
          /\ install_nonwhitelisted_model no_repr sample_api sample_root
               chroma_spec w
             = run_downloader_workflow no_repr sample_api sample_root
                 chroma_spec w1)
      \/ (exists (refused : list event) (w_k : world) (path : string)
                 (payload : jval) (b : bool) (w1 : world) (evs : list event),
             In path _INSTALL_URL_PATHS
             /\ In payload (manager_candidates (strip url) (strip filename)
                                               (strip subfolder) (strip sha256))
             /\ trace w_k = trace w0 ++ refused
             /\ Forall refused_post refused
             /\ status_code (respond w_k (POST (sample_api ++ path)%string
                                               (JsonPayload payload)
                                               "application/json")) = 200
             /\ let w_q :=
                  after_request
                    (after_request w_k (POST (sample_api ++ path)%string
                                             (JsonPayload payload)
                                             "application/json"))
                    (GET (sample_api ++ "/manager/queue/start")%string) in
                wait_queue_idle sample_api 900 (3 # 2) w_q = (Return b, w1)
                /\ trace w1 = trace w_q ++ evs
                /\ install_nonwhitelisted_model_via_manager no_repr sample_api
                     chroma_spec w = (Return b, w1)
                /\ (b = true <-> existsb (observed_idle sample_api) evs = true)
                /\ (b = true ->
                    install_nonwhitelisted_model no_repr sample_api sample_root
                      chroma_spec w = (Return true, w1))
                /\ (b = false ->
                    (now w_q + 900 <= now w1)%Q
                    /\ install_nonwhitelisted_model no_repr sample_api
                         sample_root chroma_spec w
                       = run_downloader_workflow no_repr sample_api sample_root
                           chroma_spec w1))).
Proof.
  cbv zeta.
  assert (Hu : strip "https://huggingface.co/lodestones/Chroma1-HD/resolve/main/Chroma-HD.safetensors" <> "")
    by discriminate.
  assert (Hf : strip "Chroma-HD.safetensors" <> "") by discriminate.
  assert (Hs : strip "diffusion_models" <> "") by discriminate.
  split.
  - do 4 (split; [reflexivity|]). split; [exact Hu | split; [exact Hf | exact Hs]].
  - exact (install_nonwhitelisted_model_fallback no_repr sample_api sample_root
             chroma_spec _ _ _ _ (fresh slow_queue_service)
             eq_refl eq_refl eq_refl eq_refl Hu Hf Hs).
Defined.
